(** * XRay Flight Data Recorder mode: the logging lifecycle controller

    A shallow embedding of [lib/xray/xray_fdr_logging.cc]: the four
    lifecycle operations [fdrLoggingInit], [fdrLoggingFinalize],
    [fdrLoggingFlush], [fdrLoggingReset] and the per-event hook
    [fdrLoggingHandleArg0].

    The translation unit keeps its state in four globals and talks to the
    outside through calls (diagnostics, file writes, the clock, the record
    encoder).  Both are threaded through a state-and-error monad over a
    [World]: the globals, the memory the buffers live in, the scripted
    answers of the outside, and the trace of the calls made so far.  A null
    dereference ends a run with [NullDereference]. *)

From Stdlib Require Import String Ascii.
From Stdlib Require Import Strings.Byte.
From Stdlib Require Import ZArith NArith List Bool Lia.
From ExtLib Require Import Structures.Monad Structures.MonadState Structures.MonadExc.
From ExtLib Require Import Data.Monads.StateMonad Data.Monads.EitherMonad.
Import ListNotations.
Import MonadNotation.
Local Open Scope monad_scope.
#[local] Existing Instance Monad_stateT.

(** ** Enumerations of the logging interface *)

(** [enum XRayLogInitStatus], the values of the [LoggingStatus] register. *)
Inductive XRayLogInitStatus : Type :=
| XRAY_LOG_UNINITIALIZED
| XRAY_LOG_INITIALIZING
| XRAY_LOG_INITIALIZED
| XRAY_LOG_FINALIZING
| XRAY_LOG_FINALIZED.

(** [enum XRayLogFlushStatus], the values of the [LogFlushStatus] register. *)
Inductive XRayLogFlushStatus : Type :=
| XRAY_LOG_NOT_FLUSHING
| XRAY_LOG_FLUSHING
| XRAY_LOG_FLUSHED.

(** [enum XRayEntryType], the tag the instrumentation passes to the hook. *)
Inductive XRayEntryType : Type := ENTRY | EXIT | TAIL.

(** [enum FileTypes] of the file header. *)
Inductive FileTypes : Type := NAIVE_LOG | FDR_LOG.

Definition InitStatus_eqb (a b : XRayLogInitStatus) : bool :=
  match a, b with
  | XRAY_LOG_UNINITIALIZED, XRAY_LOG_UNINITIALIZED
  | XRAY_LOG_INITIALIZING, XRAY_LOG_INITIALIZING
  | XRAY_LOG_INITIALIZED, XRAY_LOG_INITIALIZED
  | XRAY_LOG_FINALIZING, XRAY_LOG_FINALIZING
  | XRAY_LOG_FINALIZED, XRAY_LOG_FINALIZED => true
  | _, _ => false
  end.

Definition FlushStatus_eqb (a b : XRayLogFlushStatus) : bool :=
  match a, b with
  | XRAY_LOG_NOT_FLUSHING, XRAY_LOG_NOT_FLUSHING
  | XRAY_LOG_FLUSHING, XRAY_LOG_FLUSHING
  | XRAY_LOG_FLUSHED, XRAY_LOG_FLUSHED => true
  | _, _ => false
  end.

(** ** Data *)

(** [struct FDRLoggingOptions]: the options block copied by [fdrLoggingInit].
    [Fd] is an [int]; [-1] asks Flush to resolve the default log file. *)
Record FDRLoggingOptions : Type := {
  ReportErrors : bool;
  Fd : Z
}.

(** [BufferQueue::Buffer]: a region of memory, start address and size. *)
Record BufferQueue_Buffer : Type := {
  Buffer : N;
  Size : N
}.

(** Modelled from the spec: the Buffer Pool ([class BufferQueue], declared
    in [xray_buffer_queue.h], not part of this translation unit).  It has a
    configured per-buffer size, fixed-size buffers each of which it reports
    as used or not, and a terminal finalized state. *)
Record BufferQueue : Type := {
  BufferSize : N;
  Buffers : list (BufferQueue_Buffer * bool);
  Finalizing : bool
}.

(** [struct XRayFileHeader] with its [FdrAdditionalHeaderData] member, as the
    fields Flush assigns. *)
Record XRayFileHeader : Type := {
  Version : Z;
  Type_ : FileTypes;
  ConstantTSC : bool;
  NonstopTSC : bool;
  CycleFrequency : Z;
  FdrData : N
}.

(** [struct timespec]. *)
Record timespec : Type := {
  tv_sec : Z;
  tv_nsec : Z
}.

(** What one call of the write primitive does on the descriptor: the whole
    range lands, or the write fails after a prefix of it. *)
Inductive WriteOutcome : Type :=
| WriteComplete
| WriteFailsAfter (landed : nat).

(** The calls this translation unit makes to the outside, in order. *)
Inductive Event : Type :=
| EvReport (message : string) (args : list Z)
| EvSetHandler
| EvWrite (fd : Z) (requested landed : list byte)
| EvClockGettime (result : Z)
| EvProcessFunctionHook (FuncId : Z) (Entry : XRayEntryType) (TSC CPU : Z)
    (Status : XRayLogInitStatus) (Queue : option BufferQueue).

(** The globals of the translation unit ([BQ], [LoggingStatus],
    [LogFlushStatus], [FDROptions]) and the world around them.  [BQ] and
    [FDROptions] are smart pointers: [None] is the null pointer. *)
Record World : Type := {
  BQ : option BufferQueue;
  LoggingStatus : XRayLogInitStatus;
  LogFlushStatus : XRayLogFlushStatus;
  FDROptions : option FDRLoggingOptions;
  Memory : N -> byte;
  WriteScript : list WriteOutcome;
  WeakCASScript : list bool;
  Trace : list Event
}.

(** What the platform and the headers the file includes provide. *)
Record Platform : Type := {
  (** [sizeof(FDRLoggingOptions)] *)
  sizeof_FDRLoggingOptions : N;
  (** [probeRequiredCPUFeatures()] *)
  probeRequiredCPUFeatures : bool;
  (** [getTSCFrequency()], a [uint64_t] *)
  getTSCFrequency : Z;
  (** [readTSC(CPU)]: the counter and the CPU it was read on *)
  readTSC : Z * Z;
  (** [clock_gettime(CLOCK_REALTIME, &TS)]: the result and what it left in [TS] *)
  clock_gettime : Z * timespec;
  (** [errno] after [clock_gettime] *)
  errno : Z;
  (** [getLogFD()]: the descriptor of the default log file, or [-1] *)
  getLogFD : Z;
  (** the [sizeof(Header)] bytes of a header in memory *)
  XRayFileHeader_bytes : XRayFileHeader -> list byte;
  (** the regions a new pool of the given sizing gets, [None] when the
      allocation fails *)
  BufferQueue_allocate : N -> N -> option (list BufferQueue_Buffer)
}.

(** ** The monad *)

Inductive Abort : Type :=
| NullDereference
| FuelExhausted.

Definition M : Type -> Type := stateT World (sum Abort).

Definition run {A : Type} (c : M A) (w : World) : Abort + A * World :=
  runStateT c w.

(** An atomic register of the translation unit: where it lives in the world
    and how its values compare. *)
Record Atomic (A : Type) : Type := {
  reg_get : World -> A;
  reg_set : A -> World -> World;
  reg_eqb : A -> A -> bool
}.
Arguments reg_get {A}.
Arguments reg_set {A}.
Arguments reg_eqb {A}.

Definition set_BQ (q : option BufferQueue) (w : World) : World :=
  {| BQ := q; LoggingStatus := LoggingStatus w;
     LogFlushStatus := LogFlushStatus w; FDROptions := FDROptions w;
     Memory := Memory w; WriteScript := WriteScript w;
     WeakCASScript := WeakCASScript w; Trace := Trace w |}.

Definition set_LoggingStatus (v : XRayLogInitStatus) (w : World) : World :=
  {| BQ := BQ w; LoggingStatus := v;
     LogFlushStatus := LogFlushStatus w; FDROptions := FDROptions w;
     Memory := Memory w; WriteScript := WriteScript w;
     WeakCASScript := WeakCASScript w; Trace := Trace w |}.

Definition set_LogFlushStatus (v : XRayLogFlushStatus) (w : World) : World :=
  {| BQ := BQ w; LoggingStatus := LoggingStatus w;
     LogFlushStatus := v; FDROptions := FDROptions w;
     Memory := Memory w; WriteScript := WriteScript w;
     WeakCASScript := WeakCASScript w; Trace := Trace w |}.

Definition set_FDROptions (o : option FDRLoggingOptions) (w : World) : World :=
  {| BQ := BQ w; LoggingStatus := LoggingStatus w;
     LogFlushStatus := LogFlushStatus w; FDROptions := o;
     Memory := Memory w; WriteScript := WriteScript w;
     WeakCASScript := WeakCASScript w; Trace := Trace w |}.

Definition set_WriteScript (l : list WriteOutcome) (w : World) : World :=
  {| BQ := BQ w; LoggingStatus := LoggingStatus w;
     LogFlushStatus := LogFlushStatus w; FDROptions := FDROptions w;
     Memory := Memory w; WriteScript := l;
     WeakCASScript := WeakCASScript w; Trace := Trace w |}.

Definition set_WeakCASScript (l : list bool) (w : World) : World :=
  {| BQ := BQ w; LoggingStatus := LoggingStatus w;
     LogFlushStatus := LogFlushStatus w; FDROptions := FDROptions w;
     Memory := Memory w; WriteScript := WriteScript w;
     WeakCASScript := l; Trace := Trace w |}.

Definition log_event (e : Event) (w : World) : World :=
  {| BQ := BQ w; LoggingStatus := LoggingStatus w;
     LogFlushStatus := LogFlushStatus w; FDROptions := FDROptions w;
     Memory := Memory w; WriteScript := WriteScript w;
     WeakCASScript := WeakCASScript w; Trace := Trace w ++ [e] |}.

Definition LoggingStatus_reg : Atomic XRayLogInitStatus :=
  {| reg_get := LoggingStatus; reg_set := set_LoggingStatus;
     reg_eqb := InitStatus_eqb |}.

Definition LogFlushStatus_reg : Atomic XRayLogFlushStatus :=
  {| reg_get := LogFlushStatus; reg_set := set_LogFlushStatus;
     reg_eqb := FlushStatus_eqb |}.

(** [__sanitizer::atomic_load]. *)
Definition atomic_load {A : Type} (a : Atomic A) : M A :=
  w <- get ;; ret (reg_get a w).

(** [__sanitizer::atomic_store]. *)
Definition atomic_store {A : Type} (a : Atomic A) (v : A) : M unit :=
  modify (reg_set a v) ;; ret tt.

(** [__sanitizer::atomic_compare_exchange_strong(a, &cmp, xchg, mo)]: when the
    register holds [cmp] it takes [xchg] and the call answers [true];
    otherwise the held value is written back to [cmp] and the call answers
    [false].  The second component is [cmp] after the call. *)
Definition atomic_compare_exchange_strong {A : Type}
    (a : Atomic A) (cmp xchg : A) : M (bool * A) :=
  w <- get ;;
  if reg_eqb a (reg_get a w) cmp
  then put (reg_set a xchg w) ;; ret (true, cmp)
  else ret (false, reg_get a w).

(** [__sanitizer::atomic_compare_exchange_weak]: as the strong form, but it
    may fail although the register holds [cmp]; the next entry of the
    world's [WeakCASScript] says whether this call does. *)
Definition atomic_compare_exchange_weak {A : Type}
    (a : Atomic A) (cmp xchg : A) : M (bool * A) :=
  w <- get ;;
  match WeakCASScript w with
  | true :: rest =>
      put (set_WeakCASScript rest w) ;; ret (false, reg_get a w)
  | false :: rest =>
      put (set_WeakCASScript rest w) ;;
      atomic_compare_exchange_strong a cmp xchg
  | [] => atomic_compare_exchange_strong a cmp xchg
  end.

(** [Report(fmt, ...)], the diagnostic channel. *)
Definition Report (message : string) (args : list Z) : M unit :=
  modify (log_event (EvReport message args)) ;; ret tt.

(** [__xray_set_handler(fdrLoggingHandleArg0)]. *)
Definition __xray_set_handler : M unit :=
  modify (log_event EvSetHandler) ;; ret tt.

(** Dereferencing a smart pointer. *)
Definition deref {A : Type} (p : option A) : M A :=
  match p with
  | Some v => ret v
  | None => raise NullDereference
  end.

Definition newline : string := String (ascii_of_nat 10) EmptyString.

(** ** Collaborators declared outside this translation unit *)

(** Modelled from the spec: [__xray::NanosecondsPerSecond], declared in a
    header that is not part of this translation unit; the fallback cycle
    frequency of one billion, nanosecond ticks. *)
Definition NanosecondsPerSecond : Z := 1000 * 1000 * 1000.

(** Conversion to [uint64_t]. *)
Definition to_uint64 (z : Z) : Z := z mod 2 ^ 64.

(** The bytes of the memory range [[Begin, Begin + Len)]. *)
Definition read_range (mem : N -> byte) (Begin Len : N) : list byte :=
  map (fun i => mem (Begin + N.of_nat i)%N) (seq 0 (N.to_nat Len)).

(** Modelled from the spec: the retry-safe write [retryingWriteAll(Fd, Begin,
    End)], defined in [xray_utils.cc].  It retries partial writes of the
    range and gives up on an error, leaving a prefix of the range on the
    descriptor; it reports nothing back to its caller.  The next entry of
    the world's [WriteScript] says which of the two happens; with the
    script used up, writes are complete.  [written] is what the call does to
    the world. *)
Definition landed_bytes (o : WriteOutcome) (bytes : list byte) : list byte :=
  match o with
  | WriteComplete => bytes
  | WriteFailsAfter k => firstn k bytes
  end.

Definition written (Fd : Z) (bytes : list byte) (w : World) : World :=
  match WriteScript w with
  | [] => log_event (EvWrite Fd bytes bytes) w
  | o :: rest =>
      log_event (EvWrite Fd bytes (landed_bytes o bytes)) (set_WriteScript rest w)
  end.

Definition retryingWriteAll (Fd : Z) (bytes : list byte) : M unit :=
  modify (written Fd bytes) ;; ret tt.

(** Modelled from the spec: [BufferQueue::ConfiguredBufferSize()], the
    configured per-buffer size of the pool. *)
Definition ConfiguredBufferSize (q : BufferQueue) : N := BufferSize q.

(** Modelled from the spec: [BufferQueue::finalize()], which puts the pool in
    its terminal state, where it issues no new buffers. *)
Definition BufferQueue_finalize (q : BufferQueue) : BufferQueue :=
  {| BufferSize := BufferSize q; Buffers := Buffers q; Finalizing := true |}.

(** The buffers the pool reports as used, in the pool's order. *)
Definition used_buffers (q : BufferQueue) : list BufferQueue_Buffer :=
  map fst (filter snd (Buffers q)).

Fixpoint for_each {A : Type} (l : list A) (Fn : A -> M unit) : M unit :=
  match l with
  | [] => ret tt
  | x :: rest => Fn x ;; for_each rest Fn
  end.

(** Modelled from the spec: [BufferQueue::apply(Fn)], the enumeration of the
    used buffers: [Fn] is called on each buffer the pool reports as used. *)
Definition BufferQueue_apply (q : BufferQueue)
    (Fn : BufferQueue_Buffer -> M unit) : M unit :=
  for_each (used_buffers q) Fn.

(** Modelled from the spec: the constructor [BufferQueue(B, N, Success)],
    [construct(bufferSize, bufferMax) -> (handle, success)].  The pool is
    configured with the per-buffer size [B]; [Success] tells whether its
    regions could be allocated. *)
Definition BufferQueue_new (allocate : N -> N -> option (list BufferQueue_Buffer))
    (B N : N) : BufferQueue * bool :=
  match allocate B N with
  | Some regions =>
      ({| BufferSize := B; Buffers := map (fun b => (b, false)) regions;
          Finalizing := false |}, true)
  | None =>
      ({| BufferSize := B; Buffers := []; Finalizing := false |}, false)
  end.

(** Modelled from the spec: the Record Encoder,
    [__xray_fdr_internal::processFunctionHook], defined in
    [xray_fdr_logging_impl.h].  It is called once per traced event with the
    function id, the entry type, the timestamp, the CPU, the status register
    and the process-wide pool handle; this translation unit observes no
    return value.  The call is recorded with what it was given. *)
Definition processFunctionHook (FuncId : Z) (Entry : XRayEntryType)
    (TSC CPU : Z) : M unit :=
  w <- get ;;
  put (log_event
         (EvProcessFunctionHook FuncId Entry TSC CPU (LoggingStatus w) (BQ w)) w).

(** ** The translation unit *)

Section FDRLogging.

Variable P : Platform.

(** [fdrLoggingInit(BufferSize, BufferMax, Options, OptionsSize)].  [Options]
    is the block [memcpy] reads, [OptionsSize] the size the caller claims
    for it. *)
Definition fdrLoggingInit (BufferSize BufferMax : N)
    (Options : FDRLoggingOptions) (OptionsSize : N) : M XRayLogInitStatus :=
  if negb (OptionsSize =? sizeof_FDRLoggingOptions P)%N
  then atomic_load LoggingStatus_reg
  else
    '(swapped, CurrentStatus) <-
      atomic_compare_exchange_strong LoggingStatus_reg
        XRAY_LOG_UNINITIALIZED XRAY_LOG_INITIALIZING ;;
    if negb swapped then ret CurrentStatus
    else
      modify (set_FDROptions (Some Options)) ;;
      let '(Queue, Success) :=
        BufferQueue_new (BufferQueue_allocate P) BufferSize BufferMax in
      modify (set_BQ (Some Queue)) ;;
      if negb Success
      then
        Report ("BufferQueue init failed." ++ newline) [] ;;
        ret XRAY_LOG_UNINITIALIZED
      else
        __xray_set_handler ;;
        atomic_store LoggingStatus_reg XRAY_LOG_INITIALIZED ;;
        Report ("XRay FDR init successful." ++ newline) [] ;;
        ret XRAY_LOG_INITIALIZED.

(** The descriptor [fdrLoggingFlush] settles on under the options [Opts]:
    [FDROptions->Fd], or [getLogFD()] when that is [-1]. *)
Definition flush_Fd (Opts : FDRLoggingOptions) : Z :=
  let Fd0 := Fd Opts in
  if (Fd0 =? -1)%Z then getLogFD P else Fd0.

(** The header [fdrLoggingFlush] builds for the pool [Queue]. *)
Definition flush_header (Queue : BufferQueue) : XRayFileHeader :=
  {| Version := 1;
     Type_ := FDR_LOG;
     CycleFrequency :=
       if probeRequiredCPUFeatures P
       then getTSCFrequency P else NanosecondsPerSecond;
     ConstantTSC := true;
     NonstopTSC := true;
     FdrData := ConfiguredBufferSize Queue |}.

(** The function object [fdrLoggingFlush] hands to [apply]. *)
Definition flush_buffer (Fd : Z) (B : BufferQueue_Buffer) : M unit :=
  let BufferSize := Size B in
  if (0 <? BufferSize)%N
  then
    w <- get ;;
    retryingWriteAll Fd (read_range (Memory w) (Buffer B) (Size B))
  else ret tt.

(** [fdrLoggingFlush()]. *)
Definition fdrLoggingFlush : M XRayLogFlushStatus :=
  Status <- atomic_load LoggingStatus_reg ;;
  if negb (InitStatus_eqb Status XRAY_LOG_FINALIZED)
  then ret XRAY_LOG_NOT_FLUSHING
  else
    '(swapped, Result) <-
      atomic_compare_exchange_strong LogFlushStatus_reg
        XRAY_LOG_NOT_FLUSHING XRAY_LOG_FLUSHING ;;
    if negb swapped then ret Result
    else
      w <- get ;;
      let LocalBQ := BQ w in
      Opts <- deref (FDROptions w) ;;
      let Fd1 := flush_Fd Opts in
      if (Fd1 =? -1)%Z
      then
        let Result := XRAY_LOG_NOT_FLUSHING in
        atomic_store LogFlushStatus_reg Result ;;
        ret Result
      else
        Queue <- deref LocalBQ ;;
        let Header := flush_header Queue in
        retryingWriteAll Fd1 (XRayFileHeader_bytes P Header) ;;
        BufferQueue_apply Queue (flush_buffer Fd1) ;;
        atomic_store LogFlushStatus_reg XRAY_LOG_FLUSHED ;;
        ret XRAY_LOG_FLUSHED.

(** [fdrLoggingFinalize()]. *)
Definition fdrLoggingFinalize : M XRayLogInitStatus :=
  '(swapped, CurrentStatus) <-
    atomic_compare_exchange_strong LoggingStatus_reg
      XRAY_LOG_INITIALIZED XRAY_LOG_FINALIZING ;;
  if negb swapped then ret CurrentStatus
  else
    w <- get ;;
    Queue <- deref (BQ w) ;;
    modify (set_BQ (Some (BufferQueue_finalize Queue))) ;;
    atomic_store LoggingStatus_reg XRAY_LOG_FINALIZED ;;
    ret XRAY_LOG_FINALIZED.

(** The [while] loop of [fdrLoggingReset]: it goes round as long as the weak
    compare-and-swap of [LogFlushStatus] from [CurrentFlushingStatus] to
    [XRAY_LOG_NOT_FLUSHING] succeeds.  One unit of fuel pays for one
    evaluation of the loop condition. *)
Fixpoint reset_spin (fuel : nat)
    (CurrentFlushingStatus : XRayLogFlushStatus) : M unit :=
  match fuel with
  | O => raise FuelExhausted
  | S fuel' =>
      '(swapped, CurrentFlushingStatus') <-
        atomic_compare_exchange_weak LogFlushStatus_reg
          CurrentFlushingStatus XRAY_LOG_NOT_FLUSHING ;;
      if swapped
      then
        if FlushStatus_eqb CurrentFlushingStatus' XRAY_LOG_NOT_FLUSHING
        then ret tt
        else reset_spin fuel' XRAY_LOG_FLUSHED
      else ret tt
  end.

(** [fdrLoggingReset()]. *)
Definition fdrLoggingReset (fuel : nat) : M XRayLogInitStatus :=
  '(swapped, CurrentStatus) <-
    atomic_compare_exchange_strong LoggingStatus_reg
      XRAY_LOG_FINALIZED XRAY_LOG_INITIALIZED ;;
  if swapped then ret CurrentStatus
  else
    modify (set_BQ None) ;;
    reset_spin fuel XRAY_LOG_FLUSHED ;;
    ret XRAY_LOG_UNINITIALIZED.

(** [fdrLoggingHandleArg0(FuncId, Entry)].  [TS.tv_sec] and [TS.tv_nsec] are
    signed; the arithmetic that yields [TSC] is done in [uint64_t]. *)
Definition fdrLoggingHandleArg0 (FuncId : Z) (Entry : XRayEntryType) : M unit :=
  '(TSC, CPU) <-
    (if probeRequiredCPUFeatures P
     then ret (readTSC P)
     else
       let '(result, TS0) := clock_gettime P in
       modify (log_event (EvClockGettime result)) ;;
       TS <- (if negb (result =? 0)%Z
              then
                Report "clock_gettime(2) return %d, errno=%d" [result; errno P] ;;
                ret {| tv_sec := 0; tv_nsec := 0 |}
              else ret TS0) ;;
       let CPU := 0%Z in
       let TSC :=
         to_uint64 (to_uint64 (to_uint64 (tv_sec TS) * NanosecondsPerSecond)
                    + to_uint64 (tv_nsec TS)) in
       ret (TSC, CPU)) ;;
  processFunctionHook FuncId Entry TSC CPU.

End FDRLogging.

(** ** Reading traces *)

(** The write requests among the events: descriptor and requested range. *)
Fixpoint write_requests (evs : list Event) : list (Z * list byte) :=
  match evs with
  | [] => []
  | EvWrite fd requested _ :: rest => (fd, requested) :: write_requests rest
  | _ :: rest => write_requests rest
  end.

(** The bytes the events put on descriptor [Fd], in order. *)
Fixpoint file_bytes (Fd : Z) (evs : list Event) : list byte :=
  match evs with
  | [] => []
  | EvWrite fd _ landed :: rest =>
      if (fd =? Fd)%Z then landed ++ file_bytes Fd rest else file_bytes Fd rest
  | _ :: rest => file_bytes Fd rest
  end.

(** The world after the write primitive was called on each of [ranges]. *)
Fixpoint written_all (Fd : Z) (ranges : list (list byte)) (w : World) : World :=
  match ranges with
  | [] => w
  | r :: rest => written_all Fd rest (written Fd r w)
  end.

(** The events of those calls under a script of outcomes. *)
Fixpoint write_events (Fd : Z) (ranges : list (list byte))
    (script : list WriteOutcome) : list Event :=
  match ranges with
  | [] => []
  | r :: rest =>
      EvWrite Fd r (landed_bytes (hd WriteComplete script) r)
      :: write_events Fd rest (tl script)
  end.

(** The memory range of a buffer, and whether it is of non-zero size. *)
Definition buffer_range (mem : N -> byte) (B : BufferQueue_Buffer) : list byte :=
  read_range mem (Buffer B) (Size B).

Definition nonempty (B : BufferQueue_Buffer) : bool := (0 <? Size B)%N.

(** The sum of the sizes of a sequence of buffers. *)
Definition total_size (l : list BufferQueue_Buffer) : N :=
  fold_right (fun B acc => (Size B + acc)%N) 0%N l.

(** ** Sequences of calls *)

(** A call of one of the entry points of the translation unit, with its
    arguments; [fuel] is the fuel given to the loop of Reset. *)
Inductive Call : Type :=
| CallInit (BufferSize BufferMax : N) (Options : FDRLoggingOptions)
    (OptionsSize : N)
| CallFinalize
| CallFlush
| CallReset (fuel : nat)
| CallHandleArg0 (FuncId : Z) (Entry : XRayEntryType).

(** The call made, its return value dropped. *)
Definition call (P : Platform) (c : Call) : M unit :=
  match c with
  | CallInit BufferSize BufferMax Options OptionsSize =>
      fdrLoggingInit P BufferSize BufferMax Options OptionsSize ;; ret tt
  | CallFinalize => fdrLoggingFinalize ;; ret tt
  | CallFlush => fdrLoggingFlush P ;; ret tt
  | CallReset fuel => fdrLoggingReset fuel ;; ret tt
  | CallHandleArg0 FuncId Entry => fdrLoggingHandleArg0 P FuncId Entry
  end.

(** Calls made one after the other by one thread. *)
Definition calls (P : Platform) (l : list Call) : M unit :=
  for_each l (call P).

(** How often the events install the handler. *)
Fixpoint handler_installs (evs : list Event) : nat :=
  match evs with
  | [] => 0
  | EvSetHandler :: rest => S (handler_installs rest)
  | _ :: rest => handler_installs rest
  end.

(** The calls of the record encoder among the events: the status and the
    pool handle each was given. *)
Fixpoint encoder_calls (evs : list Event)
    : list (XRayLogInitStatus * option BufferQueue) :=
  match evs with
  | [] => []
  | EvProcessFunctionHook _ _ _ _ Status Queue :: rest =>
      (Status, Queue) :: encoder_calls rest
  | _ :: rest => encoder_calls rest
  end.

(** A world in which the status register has left [XRAY_LOG_UNINITIALIZED]
    and either the flush status reads [XRAY_LOG_FLUSHED] or no pool is
    installed. *)
Definition spent (w : World) : Prop :=
  LoggingStatus w <> XRAY_LOG_UNINITIALIZED
  /\ (LogFlushStatus w = XRAY_LOG_FLUSHED \/ BQ w = None).

(** A world in which the status register still reads
    [XRAY_LOG_UNINITIALIZED], or the options are set and, if the register
    reads [XRAY_LOG_FINALIZED], a pool is installed. *)
Definition settled (w : World) : Prop :=
  LoggingStatus w = XRAY_LOG_UNINITIALIZED
  \/ (FDROptions w <> None
      /\ (LoggingStatus w = XRAY_LOG_FINALIZED -> BQ w <> None)).

(** Whether a call was given the fuel its loop can need. *)
Definition enough_fuel (c : Call) : Prop :=
  match c with
  | CallReset fuel => 2 <= fuel
  | _ => True
  end.

(** The pool handle [b] holds no other pool than the handle [a] held: it is
    null, or the pool of [a] with its buffers and its configured size. *)
Definition same_pool_or_none (a b : option BufferQueue) : Prop :=
  b = None
  \/ exists q q' : BufferQueue,
       a = Some q /\ b = Some q'
       /\ BufferSize q' = BufferSize q /\ Buffers q' = Buffers q.

(** The moves of the globals that the entry points are seen to make, with
    the events that go with each.  [T_quiet]: the globals stay (a call that
    backs out, or the hook).  [T_init_failed], [T_init_done]: Initialize
    from [XRAY_LOG_UNINITIALIZED].  [T_finalize]: Finalize from
    [XRAY_LOG_INITIALIZED].  [T_flush]: the write sequence of Flush.
    [T_reset_finalized]: Reset from [XRAY_LOG_FINALIZED].  [T_reset_release]:
    Reset from any other status. *)
Inductive Transition (w w' : World) (evs : list Event) : Prop :=
| T_quiet :
    BQ w' = BQ w ->
    LoggingStatus w' = LoggingStatus w ->
    LogFlushStatus w' = LogFlushStatus w ->
    FDROptions w' = FDROptions w ->
    write_requests evs = [] ->
    handler_installs evs = 0 ->
    Transition w w' evs
| T_init_failed :
    LoggingStatus w = XRAY_LOG_UNINITIALIZED ->
    LoggingStatus w' = XRAY_LOG_INITIALIZING ->
    LogFlushStatus w' = LogFlushStatus w ->
    FDROptions w' <> None ->
    BQ w' <> None ->
    write_requests evs = [] ->
    handler_installs evs = 0 ->
    Transition w w' evs
| T_init_done :
    LoggingStatus w = XRAY_LOG_UNINITIALIZED ->
    LoggingStatus w' = XRAY_LOG_INITIALIZED ->
    LogFlushStatus w' = LogFlushStatus w ->
    FDROptions w' <> None ->
    BQ w' <> None ->
    write_requests evs = [] ->
    handler_installs evs = 1 ->
    Transition w w' evs
| T_finalize :
    LoggingStatus w = XRAY_LOG_INITIALIZED ->
    LoggingStatus w' = XRAY_LOG_FINALIZED ->
    LogFlushStatus w' = LogFlushStatus w ->
    FDROptions w' = FDROptions w ->
    (exists q : BufferQueue,
       BQ w = Some q /\ BQ w' = Some (BufferQueue_finalize q)) ->
    evs = [] ->
    Transition w w' evs
| T_flush :
    LoggingStatus w = XRAY_LOG_FINALIZED ->
    LoggingStatus w' = XRAY_LOG_FINALIZED ->
    LogFlushStatus w = XRAY_LOG_NOT_FLUSHING ->
    LogFlushStatus w' = XRAY_LOG_FLUSHED ->
    FDROptions w' = FDROptions w ->
    BQ w' = BQ w ->
    BQ w <> None ->
    write_requests evs <> [] ->
    handler_installs evs = 0 ->
    Transition w w' evs
| T_reset_finalized :
    LoggingStatus w = XRAY_LOG_FINALIZED ->
    LoggingStatus w' = XRAY_LOG_INITIALIZED ->
    LogFlushStatus w' = LogFlushStatus w ->
    FDROptions w' = FDROptions w ->
    BQ w' = BQ w ->
    evs = [] ->
    Transition w w' evs
| T_reset_release :
    LoggingStatus w <> XRAY_LOG_FINALIZED ->
    LoggingStatus w' = LoggingStatus w ->
    (LogFlushStatus w' = LogFlushStatus w
     \/ (LogFlushStatus w = XRAY_LOG_FLUSHED
         /\ LogFlushStatus w' = XRAY_LOG_NOT_FLUSHING)) ->
    FDROptions w' = FDROptions w ->
    BQ w' = None ->
    evs = [] ->
    Transition w w' evs.

(** ** Sample inputs *)

Module Sample.

Definition options : FDRLoggingOptions := {| ReportErrors := false; Fd := -1 |}.

(** A platform without the required CPU features whose allocator fails. *)
Definition platform : Platform :=
  {| sizeof_FDRLoggingOptions := 8;
     probeRequiredCPUFeatures := false;
     getTSCFrequency := 2400000000;
     readTSC := (5, 1)%Z;
     clock_gettime := (0, {| tv_sec := 3; tv_nsec := 7 |})%Z;
     errno := 0;
     getLogFD := 4;
     XRayFileHeader_bytes := fun h => [x01; x00; x01; x00]%byte;
     BufferQueue_allocate := fun _ _ => None |}.

(** A pool of three buffers of four bytes; the second was never used. *)
Definition queue : BufferQueue :=
  {| BufferSize := 4;
     Buffers := [ ({| Buffer := 16; Size := 4 |}, true);
                  ({| Buffer := 32; Size := 4 |}, false);
                  ({| Buffer := 48; Size := 0 |}, true) ];
     Finalizing := true |}.

Definition fresh : World :=
  {| BQ := None;
     LoggingStatus := XRAY_LOG_UNINITIALIZED;
     LogFlushStatus := XRAY_LOG_NOT_FLUSHING;
     FDROptions := None;
     Memory := fun _ => x2a%byte;
     WriteScript := [];
     WeakCASScript := [];
     Trace := [] |}.

(** After Initialize and Finalize: the pool is installed and finalized. *)
Definition finalized : World :=
  {| BQ := Some queue;
     LoggingStatus := XRAY_LOG_FINALIZED;
     LogFlushStatus := XRAY_LOG_NOT_FLUSHING;
     FDROptions := Some options;
     Memory := fun _ => x2a%byte;
     WriteScript := [];
     WeakCASScript := [];
     Trace := [] |}.

(** As [finalized], on a descriptor whose first write fails at once. *)
Definition finalized_bad_disk : World :=
  set_WriteScript [WriteFailsAfter 0] finalized.

(** A flush is mid-flight and the status register has left
    [XRAY_LOG_FINALIZED] again. *)
Definition flushing : World :=
  {| BQ := Some queue;
     LoggingStatus := XRAY_LOG_INITIALIZED;
     LogFlushStatus := XRAY_LOG_FLUSHING;
     FDROptions := Some options;
     Memory := fun _ => x2a%byte;
     WriteScript := [];
     WeakCASScript := [];
     Trace := [] |}.

(** A platform with the required CPU features whose allocator hands out
    two regions. *)
Definition tsc_platform : Platform :=
  {| sizeof_FDRLoggingOptions := 8;
     probeRequiredCPUFeatures := true;
     getTSCFrequency := 2400000000;
     readTSC := (123456789, 3)%Z;
     clock_gettime := (0, {| tv_sec := 3; tv_nsec := 7 |})%Z;
     errno := 0;
     getLogFD := 4;
     XRayFileHeader_bytes := fun h => [x01; x00; x01; x00]%byte;
     BufferQueue_allocate :=
       fun B _ => Some [ {| Buffer := 16; Size := B |};
                         {| Buffer := 16 + B; Size := B |} ] |}.

(** A platform on which no log file can be opened. *)
Definition no_log_platform : Platform :=
  {| sizeof_FDRLoggingOptions := 8;
     probeRequiredCPUFeatures := false;
     getTSCFrequency := 2400000000;
     readTSC := (5, 1)%Z;
     clock_gettime := (0, {| tv_sec := 3; tv_nsec := 7 |})%Z;
     errno := 0;
     getLogFD := -1;
     XRayFileHeader_bytes := fun h => [x01; x00; x01; x00]%byte;
     BufferQueue_allocate := fun _ _ => None |}.

(** After a flush: as [finalized], with the flush status at
    [XRAY_LOG_FLUSHED]. *)
Definition flushed : World :=
  set_LogFlushStatus XRAY_LOG_FLUSHED finalized.

(** After Initialize: the pool is installed, not finalized. *)
Definition initialized : World :=
  {| BQ := Some {| BufferSize := 4;
                   Buffers := [ ({| Buffer := 16; Size := 4 |}, false) ];
                   Finalizing := false |};
     LoggingStatus := XRAY_LOG_INITIALIZED;
     LogFlushStatus := XRAY_LOG_NOT_FLUSHING;
     FDROptions := Some options;
     Memory := fun _ => x2a%byte;
     WriteScript := [];
     WeakCASScript := [];
     Trace := [] |}.

(** After an Initialize whose pool construction failed. *)
Definition stuck : World :=
  {| BQ := Some {| BufferSize := 4; Buffers := []; Finalizing := false |};
     LoggingStatus := XRAY_LOG_INITIALIZING;
     LogFlushStatus := XRAY_LOG_NOT_FLUSHING;
     FDROptions := Some options;
     Memory := fun _ => x2a%byte;
     WriteScript := [];
     WeakCASScript := [];
     Trace := [] |}.

End Sample.

(** ** Properties *)

Lemma InitStatus_eqb_eq (a b : XRayLogInitStatus) :
  InitStatus_eqb a b = true <-> a = b.
Proof. destruct a, b; simpl; split; congruence. Qed.

Lemma InitStatus_eqb_neq (a b : XRayLogInitStatus) :
  InitStatus_eqb a b = false <-> a <> b.
Proof. destruct a, b; simpl; split; congruence. Qed.

Lemma FlushStatus_eqb_eq (a b : XRayLogFlushStatus) :
  FlushStatus_eqb a b = true <-> a = b.
Proof. destruct a, b; simpl; split; congruence. Qed.

Section Properties.

Variable P : Platform.

(** C5.  Whatever the status register holds, [fdrLoggingInit] called with an
    options size other than [sizeof(FDRLoggingOptions)] returns the value of
    the register and leaves the whole world as it was: the register, the
    pool handle, the options and the trace of diagnostics. *)
Theorem init_size_mismatch_changes_nothing :
  forall (w : World) (BufferSize BufferMax : N) (Options : FDRLoggingOptions)
         (OptionsSize : N),
    OptionsSize <> sizeof_FDRLoggingOptions P ->
    run (fdrLoggingInit P BufferSize BufferMax Options OptionsSize) w
    = inr (LoggingStatus w, w).
Proof.
  intros w bs bm o sz Hsz.
  unfold fdrLoggingInit.
  destruct (N.eqb_spec sz (sizeof_FDRLoggingOptions P)) as [E | _];
    [contradiction | reflexivity].
Qed.

(** C4.  When the status register holds anything but [XRAY_LOG_FINALIZED],
    [fdrLoggingFlush] returns [XRAY_LOG_NOT_FLUSHING] and leaves the whole
    world as it was: no write is made and [LogFlushStatus] is untouched. *)
Theorem flush_not_finalized_is_noop :
  forall w : World,
    LoggingStatus w <> XRAY_LOG_FINALIZED ->
    run (fdrLoggingFlush P) w = inr (XRAY_LOG_NOT_FLUSHING, w).
Proof.
  intros w Hst.
  apply InitStatus_eqb_neq in Hst.
  unfold fdrLoggingFlush, run; simpl.
  rewrite Hst. reflexivity.
Qed.

(** C2.  When [fdrLoggingInit] is called with the right options size while
    the status register holds [XRAY_LOG_UNINITIALIZED], and the construction
    of the pool reports failure, it reports a diagnostic and returns
    [XRAY_LOG_UNINITIALIZED], and the status register is left at
    [XRAY_LOG_INITIALIZING]. *)
Theorem init_pool_failure_leaves_initializing :
  forall (w : World) (BufferSize BufferMax : N) (Options : FDRLoggingOptions),
    LoggingStatus w = XRAY_LOG_UNINITIALIZED ->
    snd (BufferQueue_new (BufferQueue_allocate P) BufferSize BufferMax) = false ->
    exists w' : World,
      run (fdrLoggingInit P BufferSize BufferMax Options
             (sizeof_FDRLoggingOptions P)) w
      = inr (XRAY_LOG_UNINITIALIZED, w')
      /\ LoggingStatus w' = XRAY_LOG_INITIALIZING
      /\ Trace w' = Trace w ++ [EvReport ("BufferQueue init failed." ++ newline) []]
      /\ LogFlushStatus w' = LogFlushStatus w.
Proof.
  intros w bs bm o Hst Hfail.
  unfold fdrLoggingInit, run.
  rewrite N.eqb_refl. simpl. rewrite Hst. simpl.
  destruct (BufferQueue_new (BufferQueue_allocate P) bs bm) as [q ok].
  simpl in Hfail. subst ok. simpl.
  eexists. split; [reflexivity |]. simpl. auto.
Qed.

End Properties.

(** The loop of [fdrLoggingReset] ends after at most two evaluations of its
    condition.  It touches nothing but [LogFlushStatus] and the script of
    the weak compare-and-swap, and it leaves [XRAY_LOG_FLUSHING] and
    [XRAY_LOG_NOT_FLUSHING] in place. *)
Lemma reset_spin_total :
  forall (fuel : nat) (w : World),
    2 <= fuel ->
    exists w' : World,
      run (reset_spin fuel XRAY_LOG_FLUSHED) w = inr (tt, w')
      /\ BQ w' = BQ w
      /\ LoggingStatus w' = LoggingStatus w
      /\ FDROptions w' = FDROptions w
      /\ Trace w' = Trace w
      /\ (LogFlushStatus w <> XRAY_LOG_FLUSHED ->
          LogFlushStatus w' = LogFlushStatus w).
Proof.
  intros [| [| fuel]] w Hfuel; try lia.
  unfold run. simpl.
  destruct w as [bq st fl op mem ws cs tr]; simpl.
  destruct cs as [| [|] [| [|] cs]]; destruct fl; simpl;
    eexists; (split; [reflexivity |]); simpl;
    repeat split; congruence.
Qed.

(** With the status register at [XRAY_LOG_FINALIZED] the compare-and-swap of
    [fdrLoggingReset] succeeds and the function returns at once. *)
Lemma reset_finalized_run :
  forall (fuel : nat) (w : World),
    LoggingStatus w = XRAY_LOG_FINALIZED ->
    run (fdrLoggingReset fuel) w
    = inr (XRAY_LOG_FINALIZED, set_LoggingStatus XRAY_LOG_INITIALIZED w).
Proof.
  intros fuel w Hst. unfold fdrLoggingReset, run. simpl.
  rewrite Hst. reflexivity.
Qed.

(** With any other status the compare-and-swap fails, the pool handle is
    cleared and the loop is entered. *)
Lemma reset_not_finalized_run :
  forall (fuel : nat) (w : World),
    LoggingStatus w <> XRAY_LOG_FINALIZED ->
    run (fdrLoggingReset fuel) w
    = match run (reset_spin fuel XRAY_LOG_FLUSHED) (set_BQ None w) with
      | inl e => inl e
      | inr (_, w') => inr (XRAY_LOG_UNINITIALIZED, w')
      end.
Proof.
  intros fuel w Hst. apply InitStatus_eqb_neq in Hst.
  unfold fdrLoggingReset, run. simpl. rewrite Hst. simpl.
  destruct (runStateT (reset_spin fuel XRAY_LOG_FLUSHED) (set_BQ None w))
    as [e | [[] w']]; reflexivity.
Qed.

(** C10.  Given fuel for two rounds of its loop, [fdrLoggingReset] called
    with the status register at anything but [XRAY_LOG_FINALIZED] returns
    [XRAY_LOG_UNINITIALIZED] with the pool handle cleared and the status
    register unchanged; called with the register at [XRAY_LOG_FINALIZED] it
    returns [XRAY_LOG_FINALIZED], sets the register to
    [XRAY_LOG_INITIALIZED] and changes nothing else, the pool handle
    included. *)
Theorem reset_clears_pool_unless_finalized :
  forall (fuel : nat) (w : World),
    2 <= fuel ->
    (LoggingStatus w <> XRAY_LOG_FINALIZED ->
     exists w' : World,
       run (fdrLoggingReset fuel) w = inr (XRAY_LOG_UNINITIALIZED, w')
       /\ BQ w' = None
       /\ LoggingStatus w' = LoggingStatus w)
    /\ (LoggingStatus w = XRAY_LOG_FINALIZED ->
        run (fdrLoggingReset fuel) w
        = inr (XRAY_LOG_FINALIZED, set_LoggingStatus XRAY_LOG_INITIALIZED w)
        /\ BQ (set_LoggingStatus XRAY_LOG_INITIALIZED w) = BQ w
        /\ LoggingStatus (set_LoggingStatus XRAY_LOG_INITIALIZED w)
           = XRAY_LOG_INITIALIZED).
Proof.
  intros fuel w Hfuel. split; intros Hst.
  - rewrite (reset_not_finalized_run fuel w Hst).
    destruct (reset_spin_total fuel (set_BQ None w) Hfuel)
      as (w' & Hrun & Hbq & Hls & _).
    rewrite Hrun. exists w'. repeat split; assumption.
  - rewrite (reset_finalized_run fuel w Hst). repeat split.
Qed.

(** C1, the code at a finalized world with no flush in flight.
    [fdrLoggingReset] returns [XRAY_LOG_FINALIZED], not
    [XRAY_LOG_UNINITIALIZED]; the pool handle is still installed and the
    status register reads [XRAY_LOG_INITIALIZED]. *)
Theorem reset_at_finalized_keeps_pool :
  exists w' : World,
    run (fdrLoggingReset 2) Sample.finalized = inr (XRAY_LOG_FINALIZED, w')
    /\ BQ w' = Some Sample.queue
    /\ LoggingStatus w' = XRAY_LOG_INITIALIZED.
Proof.
  eexists. split; [reflexivity |]. split; reflexivity.
Qed.

(** C3, the code at a world where a flush is in flight.  [fdrLoggingReset]
    gets past its compare-and-swap and completes, returning
    [XRAY_LOG_UNINITIALIZED], while [LogFlushStatus] still reads
    [XRAY_LOG_FLUSHING]. *)
Theorem reset_completes_while_flushing :
  exists w' : World,
    run (fdrLoggingReset 2) Sample.flushing = inr (XRAY_LOG_UNINITIALIZED, w')
    /\ LogFlushStatus w' = XRAY_LOG_FLUSHING.
Proof.
  eexists. split; reflexivity.
Qed.

(** The same for every world: when the loop of [fdrLoggingReset] finds
    [XRAY_LOG_FLUSHING], its first compare-and-swap fails and the loop is
    left, whatever the fuel beyond one round. *)
Lemma reset_never_waits_for_flushing :
  forall (fuel : nat) (w : World),
    LoggingStatus w <> XRAY_LOG_FINALIZED ->
    LogFlushStatus w = XRAY_LOG_FLUSHING ->
    exists w' : World,
      run (fdrLoggingReset (S fuel)) w = inr (XRAY_LOG_UNINITIALIZED, w')
      /\ LogFlushStatus w' = XRAY_LOG_FLUSHING.
Proof.
  intros fuel w Hst Hfl.
  rewrite (reset_not_finalized_run (S fuel) w Hst).
  unfold run. simpl.
  destruct w as [bq st fl op mem ws cs tr]; simpl in *. subst fl.
  destruct cs as [| [|] cs]; simpl; eexists; split; reflexivity.
Qed.

(** X18.  What the loop leaves in [LogFlushStatus] when no compare-and-swap
    fails spuriously: [XRAY_LOG_FLUSHED] is swapped to
    [XRAY_LOG_NOT_FLUSHING], the other two values stay. *)
Lemma reset_final_flush_status :
  forall (fuel : nat) (w : World),
    2 <= fuel ->
    LoggingStatus w <> XRAY_LOG_FINALIZED ->
    WeakCASScript w = [] ->
    exists w' : World,
      run (fdrLoggingReset fuel) w = inr (XRAY_LOG_UNINITIALIZED, w')
      /\ LogFlushStatus w'
         = match LogFlushStatus w with
           | XRAY_LOG_FLUSHING => XRAY_LOG_FLUSHING
           | _ => XRAY_LOG_NOT_FLUSHING
           end.
Proof.
  intros [| [| fuel]] w Hfuel Hst Hcs; try lia.
  rewrite (reset_not_finalized_run _ w Hst).
  unfold run. simpl.
  destruct w as [bq st fl op mem ws cs tr]; simpl in *. subst cs.
  destruct fl; simpl; eexists; split; reflexivity.
Qed.

(** *** The write sequence of Flush *)

Lemma written_frame (Fd : Z) (bytes : list byte) (w : World) :
  BQ (written Fd bytes w) = BQ w
  /\ LoggingStatus (written Fd bytes w) = LoggingStatus w
  /\ LogFlushStatus (written Fd bytes w) = LogFlushStatus w
  /\ FDROptions (written Fd bytes w) = FDROptions w
  /\ Memory (written Fd bytes w) = Memory w.
Proof.
  unfold written. destruct (WriteScript w); simpl; repeat split.
Qed.

Lemma written_trace (Fd : Z) (bytes : list byte) (w : World) :
  Trace (written Fd bytes w)
  = Trace w ++ [EvWrite Fd bytes (landed_bytes (hd WriteComplete (WriteScript w)) bytes)]
  /\ WriteScript (written Fd bytes w) = tl (WriteScript w).
Proof.
  unfold written. destruct (WriteScript w) as [| o rest] eqn:E; simpl;
    rewrite ?E; split; reflexivity.
Qed.

Lemma written_all_frame (Fd : Z) (ranges : list (list byte)) :
  forall w : World,
    BQ (written_all Fd ranges w) = BQ w
    /\ LoggingStatus (written_all Fd ranges w) = LoggingStatus w
    /\ LogFlushStatus (written_all Fd ranges w) = LogFlushStatus w
    /\ FDROptions (written_all Fd ranges w) = FDROptions w
    /\ Memory (written_all Fd ranges w) = Memory w.
Proof.
  induction ranges as [| r rest IH]; intros w; simpl.
  - repeat split.
  - destruct (IH (written Fd r w)) as (H1 & H2 & H3 & H4 & H5).
    destruct (written_frame Fd r w) as (G1 & G2 & G3 & G4 & G5).
    repeat split; congruence.
Qed.

Lemma written_all_trace (Fd : Z) (ranges : list (list byte)) :
  forall w : World,
    Trace (written_all Fd ranges w)
    = Trace w ++ write_events Fd ranges (WriteScript w).
Proof.
  induction ranges as [| r rest IH]; intros w; simpl.
  - now rewrite app_nil_r.
  - rewrite IH. destruct (written_trace Fd r w) as [Ht Hs].
    rewrite Ht, Hs, <- app_assoc. reflexivity.
Qed.

(** The enumeration with Flush's function object is one call of the write
    primitive per buffer of non-zero size. *)
Lemma for_each_flush_buffer (Fd : Z) (l : list BufferQueue_Buffer) :
  forall w : World,
    run (for_each l (flush_buffer Fd)) w
    = inr (tt, written_all Fd (map (buffer_range (Memory w)) (filter nonempty l)) w).
Proof.
  induction l as [| B rest IH]; intros w.
  - reflexivity.
  - unfold run in *. simpl. unfold flush_buffer at 1. unfold nonempty at 1.
    destruct (0 <? Size B)%N; simpl.
    + rewrite IH.
      destruct (written_frame Fd (read_range (Memory w) (Buffer B) (Size B)) w)
        as (_ & _ & _ & _ & Hm).
      rewrite Hm. reflexivity.
    + rewrite IH. reflexivity.
Qed.

Lemma write_requests_write_events (Fd : Z) (ranges : list (list byte)) :
  forall script : list WriteOutcome,
    write_requests (write_events Fd ranges script) = map (pair Fd) ranges.
Proof.
  induction ranges as [| r rest IH]; intros script; simpl;
    [| rewrite IH]; reflexivity.
Qed.

Lemma write_events_length (Fd : Z) (ranges : list (list byte)) :
  forall script : list WriteOutcome,
    length (write_events Fd ranges script) = length ranges.
Proof.
  induction ranges as [| r rest IH]; intros script; simpl;
    [| rewrite IH]; reflexivity.
Qed.

Lemma write_events_complete (Fd : Z) (ranges : list (list byte)) :
  forall script : list WriteOutcome,
    Forall (fun o => o = WriteComplete) script ->
    write_events Fd ranges script = map (fun r => EvWrite Fd r r) ranges.
Proof.
  induction ranges as [| r rest IH]; intros script Hall; simpl.
  - reflexivity.
  - destruct Hall as [| o script' Ho Hall']; simpl.
    + rewrite (IH [] (Forall_nil _)). reflexivity.
    + subst o. rewrite (IH script' Hall'). reflexivity.
Qed.

Lemma file_bytes_app (Fd : Z) (a b : list Event) :
  file_bytes Fd (a ++ b) = file_bytes Fd a ++ file_bytes Fd b.
Proof.
  induction a as [| e a IH]; simpl; [reflexivity |].
  destruct e; try assumption.
  destruct (fd =? Fd)%Z; [rewrite IH, app_assoc |]; auto.
Qed.

Lemma file_bytes_complete_writes (Fd : Z) (ranges : list (list byte)) :
  file_bytes Fd (map (fun r => EvWrite Fd r r) ranges) = concat ranges.
Proof.
  induction ranges as [| r rest IH]; simpl; [reflexivity |].
  rewrite Z.eqb_refl, IH. reflexivity.
Qed.

Lemma read_range_length (mem : N -> byte) (Begin Len : N) :
  length (read_range mem Begin Len) = N.to_nat Len.
Proof.
  unfold read_range. now rewrite length_map, length_seq.
Qed.

(** A buffer of size zero has an empty range, so skipping it changes no
    byte of the payload. *)
Lemma concat_ranges_skip_empty (mem : N -> byte) (l : list BufferQueue_Buffer) :
  concat (map (buffer_range mem) (filter nonempty l))
  = concat (map (buffer_range mem) l).
Proof.
  induction l as [| B rest IH]; [reflexivity |].
  cbn [filter map concat]. unfold nonempty at 1.
  destruct (N.ltb_spec 0 (Size B)) as [Hpos | Hz]; cbn [map concat].
  - now rewrite IH.
  - assert (Hempty : buffer_range mem B = []).
    { unfold buffer_range, read_range.
      replace (Size B) with 0%N by lia. reflexivity. }
    rewrite IH, Hempty. reflexivity.
Qed.

Lemma payload_length (mem : N -> byte) (l : list BufferQueue_Buffer) :
  N.of_nat (length (concat (map (buffer_range mem) l))) = total_size l.
Proof.
  induction l as [| B rest IH]; [reflexivity |].
  cbn [map concat total_size fold_right]. fold (total_size rest).
  rewrite length_app. unfold buffer_range at 1. rewrite read_range_length.
  rewrite Nat2N.inj_add, N2Nat.id, IH. reflexivity.
Qed.

Section FlushProperties.

Variable P : Platform.

(** The run of [fdrLoggingFlush] that gets to write: the header goes first,
    then the used buffers of non-zero size; the flush status is stored last. *)
Lemma flush_run :
  forall (w : World) (Opts : FDRLoggingOptions) (Queue : BufferQueue),
    LoggingStatus w = XRAY_LOG_FINALIZED ->
    LogFlushStatus w = XRAY_LOG_NOT_FLUSHING ->
    FDROptions w = Some Opts ->
    BQ w = Some Queue ->
    flush_Fd P Opts <> (-1)%Z ->
    run (fdrLoggingFlush P) w
    = inr (XRAY_LOG_FLUSHED,
           set_LogFlushStatus XRAY_LOG_FLUSHED
             (written_all (flush_Fd P Opts)
                (XRayFileHeader_bytes P (flush_header P Queue)
                 :: map (buffer_range (Memory w))
                      (filter nonempty (used_buffers Queue)))
                (set_LogFlushStatus XRAY_LOG_FLUSHING w))).
Proof.
  intros w Opts Queue Hst Hfl Hop Hbq Hfd.
  apply Z.eqb_neq in Hfd.
  pose proof (for_each_flush_buffer (flush_Fd P Opts) (used_buffers Queue)) as Hloop.
  unfold fdrLoggingFlush, BufferQueue_apply, run in *. simpl.
  rewrite Hst. simpl. rewrite Hfl. simpl. rewrite Hop. simpl.
  rewrite Hfd. simpl. rewrite Hbq. simpl.
  rewrite Hloop. simpl.
  destruct (written_frame (flush_Fd P Opts)
              (XRayFileHeader_bytes P (flush_header P Queue))
              (set_LogFlushStatus XRAY_LOG_FLUSHING w)) as (_ & _ & _ & _ & Hm).
  rewrite Hm. reflexivity.
Qed.

(** C6.  A flush that gets to write and whose writes all complete returns
    [XRAY_LOG_FLUSHED] and adds to the descriptor the bytes of the header,
    whose [FdrData] is the configured buffer size of the pool, followed by
    the memory ranges of the buffers the pool reports as used, one after the
    other.  Buffers of size zero get no write.  The payload is as long as
    the sizes of the used buffers add up to. *)
Theorem flush_emits_header_then_used_buffers :
  forall (w : World) (Opts : FDRLoggingOptions) (Queue : BufferQueue),
    LoggingStatus w = XRAY_LOG_FINALIZED ->
    LogFlushStatus w = XRAY_LOG_NOT_FLUSHING ->
    FDROptions w = Some Opts ->
    BQ w = Some Queue ->
    flush_Fd P Opts <> (-1)%Z ->
    Forall (fun o => o = WriteComplete) (WriteScript w) ->
    let fd := flush_Fd P Opts in
    let Header := flush_header P Queue in
    let payload := concat (map (buffer_range (Memory w)) (used_buffers Queue)) in
    exists w' : World,
      run (fdrLoggingFlush P) w = inr (XRAY_LOG_FLUSHED, w')
      /\ Trace w'
         = Trace w
           ++ EvWrite fd (XRayFileHeader_bytes P Header) (XRayFileHeader_bytes P Header)
           :: map (fun B => EvWrite fd (buffer_range (Memory w) B)
                                     (buffer_range (Memory w) B))
                (filter nonempty (used_buffers Queue))
      /\ file_bytes fd (Trace w')
         = file_bytes fd (Trace w) ++ XRayFileHeader_bytes P Header ++ payload
      /\ FdrData Header = ConfiguredBufferSize Queue
      /\ N.of_nat (length payload) = total_size (used_buffers Queue).
Proof.
  intros w Opts Queue Hst Hfl Hop Hbq Hfd Hall fd Header payload.
  eexists. split; [exact (flush_run w Opts Queue Hst Hfl Hop Hbq Hfd) |].
  assert (Htrace :
    Trace (set_LogFlushStatus XRAY_LOG_FLUSHED
             (written_all fd
                (XRayFileHeader_bytes P Header
                 :: map (buffer_range (Memory w))
                      (filter nonempty (used_buffers Queue)))
                (set_LogFlushStatus XRAY_LOG_FLUSHING w)))
    = Trace w
      ++ EvWrite fd (XRayFileHeader_bytes P Header) (XRayFileHeader_bytes P Header)
      :: map (fun B => EvWrite fd (buffer_range (Memory w) B)
                                (buffer_range (Memory w) B))
           (filter nonempty (used_buffers Queue))).
  { cbn [Trace set_LogFlushStatus]. rewrite written_all_trace.
    cbn [Trace WriteScript set_LogFlushStatus].
    rewrite (write_events_complete fd _ (WriteScript w) Hall).
    cbn [map]. rewrite map_map. reflexivity. }
  split; [exact Htrace |].
  split; [| split; [reflexivity | apply payload_length]].
  fold fd Header. rewrite Htrace, file_bytes_app. f_equal.
  change (EvWrite fd (XRayFileHeader_bytes P Header) (XRayFileHeader_bytes P Header)
          :: map (fun B => EvWrite fd (buffer_range (Memory w) B)
                                    (buffer_range (Memory w) B))
               (filter nonempty (used_buffers Queue)))
    with ((fun r => EvWrite fd r r) (XRayFileHeader_bytes P Header)
          :: map (fun B => (fun r => EvWrite fd r r) (buffer_range (Memory w) B))
               (filter nonempty (used_buffers Queue))).
  rewrite <- (map_map (buffer_range (Memory w)) (fun r => EvWrite fd r r)).
  rewrite <- (map_cons (fun r => EvWrite fd r r)).
  rewrite file_bytes_complete_writes. cbn [concat].
  rewrite concat_ranges_skip_empty. reflexivity.
Qed.

(** C7.  The header a flush writes first has as its [CycleFrequency] the
    frequency of the timestamp counter when the required CPU features are
    there, and one billion when they are not. *)
Theorem flush_header_cycle_frequency :
  forall (w : World) (Opts : FDRLoggingOptions) (Queue : BufferQueue),
    LoggingStatus w = XRAY_LOG_FINALIZED ->
    LogFlushStatus w = XRAY_LOG_NOT_FLUSHING ->
    FDROptions w = Some Opts ->
    BQ w = Some Queue ->
    flush_Fd P Opts <> (-1)%Z ->
    exists (w' : World) (landed : list byte) (rest : list Event),
      run (fdrLoggingFlush P) w = inr (XRAY_LOG_FLUSHED, w')
      /\ Trace w'
         = Trace w
           ++ EvWrite (flush_Fd P Opts)
                (XRayFileHeader_bytes P (flush_header P Queue)) landed
           :: rest
      /\ CycleFrequency (flush_header P Queue)
         = (if probeRequiredCPUFeatures P
            then getTSCFrequency P else 1000000000)%Z.
Proof.
  intros w Opts Queue Hst Hfl Hop Hbq Hfd.
  eexists. eexists. eexists.
  split; [exact (flush_run w Opts Queue Hst Hfl Hop Hbq Hfd) |].
  split; [| reflexivity].
  cbn [Trace set_LogFlushStatus]. rewrite written_all_trace.
  cbn [Trace WriteScript set_LogFlushStatus write_events]. reflexivity.
Qed.

(** C8.  A flush that gets to write returns [XRAY_LOG_FLUSHED] and leaves
    [XRAY_LOG_FLUSHED] in the flush status whatever the outcomes of its
    writes are.  Under every script of outcomes it asks for the same writes,
    each once: the header and each used buffer of non-zero size.  The status
    register and the pool handle are as before. *)
Theorem flush_returns_flushed_whatever_writes_do :
  forall (w : World) (Opts : FDRLoggingOptions) (Queue : BufferQueue),
    LoggingStatus w = XRAY_LOG_FINALIZED ->
    LogFlushStatus w = XRAY_LOG_NOT_FLUSHING ->
    FDROptions w = Some Opts ->
    BQ w = Some Queue ->
    flush_Fd P Opts <> (-1)%Z ->
    exists (w' : World) (evs : list Event),
      run (fdrLoggingFlush P) w = inr (XRAY_LOG_FLUSHED, w')
      /\ LogFlushStatus w' = XRAY_LOG_FLUSHED
      /\ LoggingStatus w' = XRAY_LOG_FINALIZED
      /\ BQ w' = Some Queue
      /\ Trace w' = Trace w ++ evs
      /\ write_requests evs
         = map (pair (flush_Fd P Opts))
             (XRayFileHeader_bytes P (flush_header P Queue)
              :: map (buffer_range (Memory w))
                   (filter nonempty (used_buffers Queue)))
      /\ length evs = S (length (filter nonempty (used_buffers Queue))).
Proof.
  intros w Opts Queue Hst Hfl Hop Hbq Hfd.
  eexists. eexists.
  split; [exact (flush_run w Opts Queue Hst Hfl Hop Hbq Hfd) |].
  split; [reflexivity |].
  destruct (written_all_frame (flush_Fd P Opts)
              (XRayFileHeader_bytes P (flush_header P Queue)
               :: map (buffer_range (Memory w))
                    (filter nonempty (used_buffers Queue)))
              (set_LogFlushStatus XRAY_LOG_FLUSHING w)) as (Hq & Hs & _).
  split; [cbn [LoggingStatus set_LogFlushStatus]; rewrite Hs; exact Hst |].
  split; [cbn [BQ set_LogFlushStatus]; rewrite Hq; exact Hbq |].
  split.
  - cbn [Trace set_LogFlushStatus]. rewrite written_all_trace.
    cbn [Trace set_LogFlushStatus]. reflexivity.
  - split.
    + apply write_requests_write_events.
    + rewrite write_events_length. cbn [length]. now rewrite length_map.
Qed.

End FlushProperties.

(** *** The hook *)

(** The [uint64_t] arithmetic of the fallback timestamp is the sum of the
    products taken modulo [2 ^ 64]. *)
Lemma fallback_TSC_mod (sec nsec : Z) :
  to_uint64 (to_uint64 (to_uint64 sec * NanosecondsPerSecond) + to_uint64 nsec)
  = to_uint64 (sec * 1000000000 + nsec).
Proof.
  unfold to_uint64, NanosecondsPerSecond.
  change (1000 * 1000 * 1000)%Z with 1000000000%Z.
  rewrite Z.mul_mod_idemp_l by lia.
  rewrite Z.add_mod_idemp_l by lia.
  rewrite Z.add_mod_idemp_r by lia.
  reflexivity.
Qed.

Section HookProperties.

Variable P : Platform.

(** C9.  Without the required CPU features the hook reads the wall clock;
    when that read fails it reports a diagnostic and takes a zeroed time.  It
    then calls the record encoder with CPU 0 and, as timestamp, seconds
    times one billion plus nanoseconds in [uint64_t] arithmetic, which is
    that number itself whenever it fits 64 bits.  The clock read and the
    diagnostic come before the call of the encoder, and the globals are not
    touched. *)
Theorem hook_falls_back_to_wall_clock :
  forall (w : World) (FuncId : Z) (Entry : XRayEntryType),
    probeRequiredCPUFeatures P = false ->
    let result := fst (clock_gettime P) in
    let TS := if (result =? 0)%Z
              then snd (clock_gettime P)
              else {| tv_sec := 0; tv_nsec := 0 |} in
    let ticks := (tv_sec TS * 1000000000 + tv_nsec TS)%Z in
    exists w' : World,
      run (fdrLoggingHandleArg0 P FuncId Entry) w = inr (tt, w')
      /\ Trace w'
         = Trace w
           ++ [EvClockGettime result]
           ++ (if (result =? 0)%Z then []
               else [EvReport "clock_gettime(2) return %d, errno=%d"
                       [result; errno P]])
           ++ [EvProcessFunctionHook FuncId Entry (to_uint64 ticks) 0
                 (LoggingStatus w) (BQ w)]
      /\ (result <> 0%Z -> to_uint64 ticks = 0%Z)
      /\ ((0 <= ticks < 2 ^ 64)%Z -> to_uint64 ticks = ticks)
      /\ BQ w' = BQ w
      /\ LoggingStatus w' = LoggingStatus w
      /\ LogFlushStatus w' = LogFlushStatus w.
Proof.
  intros w FuncId Entry Hprobe result TS ticks.
  subst ticks TS result.
  unfold fdrLoggingHandleArg0, run. rewrite Hprobe.
  destruct (clock_gettime P) as [result TS0]. cbn [fst snd].
  destruct (Z.eqb_spec result 0) as [Hz | Hnz]; simpl.
  - eexists. split; [reflexivity |]. cbn [Trace log_event BQ LoggingStatus LogFlushStatus].
    rewrite fallback_TSC_mod, <- app_assoc.
    repeat split; try reflexivity.
    + intros Hne. contradiction.
    + intros Hrange. unfold to_uint64. apply Z.mod_small. exact Hrange.
  - eexists. split; [reflexivity |]. cbn [Trace log_event BQ LoggingStatus LogFlushStatus].
    rewrite <- !app_assoc.
    repeat split; try reflexivity.
Qed.

End HookProperties.

(** *** From Initialize to Flush *)

Lemma run_bind {A B : Type} (c : M A) (k : A -> M B) (w : World) :
  run (x <- c ;; k x) w
  = match run c w with
    | inl e => inl e
    | inr (a, w') => run (k a) w'
    end.
Proof.
  unfold run. simpl. destruct (runStateT c w) as [e | [a w']]; reflexivity.
Qed.

Section Lifecycle.

Variable P : Platform.

(** A successful [fdrLoggingInit] installs a pool configured with the buffer
    size it was given, installs the handler and moves the status register to
    [XRAY_LOG_INITIALIZED]. *)
Lemma init_success_run :
  forall (w : World) (BufferSize BufferMax : N) (Options : FDRLoggingOptions)
         (regions : list BufferQueue_Buffer),
    LoggingStatus w = XRAY_LOG_UNINITIALIZED ->
    BufferQueue_allocate P BufferSize BufferMax = Some regions ->
    exists (w' : World) (Queue : BufferQueue),
      run (fdrLoggingInit P BufferSize BufferMax Options
             (sizeof_FDRLoggingOptions P)) w
      = inr (XRAY_LOG_INITIALIZED, w')
      /\ LoggingStatus w' = XRAY_LOG_INITIALIZED
      /\ LogFlushStatus w' = LogFlushStatus w
      /\ FDROptions w' = Some Options
      /\ BQ w' = Some Queue
      /\ ConfiguredBufferSize Queue = BufferSize
      /\ Trace w'
         = Trace w ++ [EvSetHandler;
                       EvReport ("XRay FDR init successful." ++ newline) []].
Proof.
  intros w bs bm o regions Hst Halloc.
  unfold fdrLoggingInit, run, BufferQueue_new.
  rewrite N.eqb_refl, Halloc. simpl. rewrite Hst. simpl.
  eexists. eexists. split; [reflexivity |].
  cbn. rewrite <- app_assoc. repeat split.
Qed.

(** [fdrLoggingFinalize] on an initialized world finalizes the pool and
    keeps its configured buffer size. *)
Lemma finalize_run :
  forall (w : World) (Queue : BufferQueue),
    LoggingStatus w = XRAY_LOG_INITIALIZED ->
    BQ w = Some Queue ->
    run fdrLoggingFinalize w
    = inr (XRAY_LOG_FINALIZED,
           set_LoggingStatus XRAY_LOG_FINALIZED
             (set_BQ (Some (BufferQueue_finalize Queue))
                (set_LoggingStatus XRAY_LOG_FINALIZING w))).
Proof.
  intros w Queue Hst Hbq.
  unfold fdrLoggingFinalize, run. simpl. rewrite Hst. simpl.
  rewrite Hbq. reflexivity.
Qed.

(** X17.  Initialize, Finalize, Flush in a row: the header the flush writes
    declares the buffer size that was given to Initialize. *)
Lemma lifecycle_header_declares_init_buffer_size :
  forall (w : World) (BufferSize BufferMax : N) (Options : FDRLoggingOptions)
         (regions : list BufferQueue_Buffer),
    LoggingStatus w = XRAY_LOG_UNINITIALIZED ->
    LogFlushStatus w = XRAY_LOG_NOT_FLUSHING ->
    BufferQueue_allocate P BufferSize BufferMax = Some regions ->
    flush_Fd P Options <> (-1)%Z ->
    exists (w' : World) (Header : XRayFileHeader) (landed : list byte)
           (rest : list Event),
      run (fdrLoggingInit P BufferSize BufferMax Options
             (sizeof_FDRLoggingOptions P) ;;
           fdrLoggingFinalize ;;
           fdrLoggingFlush P) w
      = inr (XRAY_LOG_FLUSHED, w')
      /\ Trace w'
         = (Trace w ++ [EvSetHandler;
                        EvReport ("XRay FDR init successful." ++ newline) []])
           ++ EvWrite (flush_Fd P Options) (XRayFileHeader_bytes P Header) landed
           :: rest
      /\ FdrData Header = BufferSize.
Proof.
  intros w bs bm o regions Hst Hfl Halloc Hfd.
  destruct (init_success_run w bs bm o regions Hst Halloc)
    as (w1 & q & Hrun1 & Hst1 & Hfl1 & Hop1 & Hbq1 & Hsize & Htr1).
  rewrite run_bind, Hrun1, run_bind, (finalize_run w1 q Hst1 Hbq1).
  set (w2 := set_LoggingStatus XRAY_LOG_FINALIZED _).
  assert (Hrun3 := flush_run P w2 o (BufferQueue_finalize q)
                     eq_refl (eq_trans Hfl1 Hfl) Hop1 eq_refl Hfd).
  rewrite Hrun3.
  exists (set_LogFlushStatus XRAY_LOG_FLUSHED
            (written_all (flush_Fd P o)
               (XRayFileHeader_bytes P (flush_header P (BufferQueue_finalize q))
                :: map (buffer_range (Memory w2))
                     (filter nonempty (used_buffers (BufferQueue_finalize q))))
               (set_LogFlushStatus XRAY_LOG_FLUSHING w2))).
  exists (flush_header P (BufferQueue_finalize q)).
  eexists. eexists.
  split; [reflexivity |].
  split; [| exact Hsize].
  cbn [Trace set_LogFlushStatus]. rewrite written_all_trace.
  cbn [Trace WriteScript set_LogFlushStatus write_events].
  subst w2. cbn [Trace set_LoggingStatus set_BQ]. rewrite Htr1.
  reflexivity.
Qed.

End Lifecycle.

(** ** The theorems at the sample inputs *)

Lemma init_size_mismatch_changes_nothing_witness :
  7%N <> sizeof_FDRLoggingOptions Sample.platform
  /\ run (fdrLoggingInit Sample.platform 4096 2 Sample.options 7) Sample.finalized
     = inr (XRAY_LOG_FINALIZED, Sample.finalized).
Proof.
  split.
  - vm_compute. discriminate.
  - apply (init_size_mismatch_changes_nothing
             Sample.platform Sample.finalized 4096 2 Sample.options 7).
    vm_compute. discriminate.
Defined.

Lemma flush_not_finalized_is_noop_witness :
  LoggingStatus Sample.flushing <> XRAY_LOG_FINALIZED
  /\ run (fdrLoggingFlush Sample.platform) Sample.flushing
     = inr (XRAY_LOG_NOT_FLUSHING, Sample.flushing).
Proof.
  split.
  - vm_compute. discriminate.
  - apply (flush_not_finalized_is_noop Sample.platform Sample.flushing).
    vm_compute. discriminate.
Defined.

Lemma init_pool_failure_leaves_initializing_witness :
  LoggingStatus Sample.fresh = XRAY_LOG_UNINITIALIZED
  /\ snd (BufferQueue_new (BufferQueue_allocate Sample.platform) 4096 2) = false
  /\ exists w' : World,
       run (fdrLoggingInit Sample.platform 4096 2 Sample.options 8) Sample.fresh
       = inr (XRAY_LOG_UNINITIALIZED, w')
       /\ LoggingStatus w' = XRAY_LOG_INITIALIZING
       /\ Trace w' = [EvReport ("BufferQueue init failed." ++ newline) []]
       /\ LogFlushStatus w' = XRAY_LOG_NOT_FLUSHING.
Proof.
  split; [reflexivity |]. split; [reflexivity |].
  exact (init_pool_failure_leaves_initializing
           Sample.platform Sample.fresh 4096 2 Sample.options eq_refl eq_refl).
Defined.

Lemma reset_clears_pool_unless_finalized_witness :
  2 <= 2
  /\ LoggingStatus Sample.flushing <> XRAY_LOG_FINALIZED
  /\ LoggingStatus Sample.finalized = XRAY_LOG_FINALIZED
  /\ (exists w' : World,
        run (fdrLoggingReset 2) Sample.flushing = inr (XRAY_LOG_UNINITIALIZED, w')
        /\ BQ w' = None
        /\ LoggingStatus w' = XRAY_LOG_INITIALIZED)
  /\ run (fdrLoggingReset 2) Sample.finalized
     = inr (XRAY_LOG_FINALIZED,
            set_LoggingStatus XRAY_LOG_INITIALIZED Sample.finalized).
Proof.
  split; [lia |]. split; [vm_compute; discriminate |]. split; [reflexivity |].
  split.
  - apply (proj1 (reset_clears_pool_unless_finalized 2 Sample.flushing (le_n 2))).
    vm_compute. discriminate.
  - apply (proj2 (reset_clears_pool_unless_finalized 2 Sample.finalized (le_n 2))).
    reflexivity.
Defined.

Lemma flush_emits_header_then_used_buffers_witness :
  flush_Fd Sample.platform Sample.options <> (-1)%Z
  /\ Forall (fun o => o = WriteComplete) (WriteScript Sample.finalized)
  /\ exists w' : World,
       run (fdrLoggingFlush Sample.platform) Sample.finalized
       = inr (XRAY_LOG_FLUSHED, w')
       /\ file_bytes 4 (Trace w')
          = [x01; x00; x01; x00; x2a; x2a; x2a; x2a]%byte
       /\ total_size (used_buffers Sample.queue) = 4%N.
Proof.
  split; [vm_compute; discriminate |]. split; [constructor |].
  destruct (flush_emits_header_then_used_buffers
              Sample.platform Sample.finalized Sample.options Sample.queue
              eq_refl eq_refl eq_refl eq_refl
              ltac:(vm_compute; discriminate) (Forall_nil _))
    as (w' & Hrun & _ & Hfile & _ & _).
  exists w'. split; [exact Hrun |]. split; [| reflexivity].
  etransitivity; [exact Hfile | reflexivity].
Defined.

Lemma flush_header_cycle_frequency_witness :
  flush_Fd Sample.platform Sample.options <> (-1)%Z
  /\ exists (w' : World) (landed : list byte) (rest : list Event),
       run (fdrLoggingFlush Sample.platform) Sample.finalized
       = inr (XRAY_LOG_FLUSHED, w')
       /\ Trace w'
          = Trace Sample.finalized
            ++ EvWrite 4
                 (XRayFileHeader_bytes Sample.platform
                    (flush_header Sample.platform Sample.queue)) landed
            :: rest
       /\ CycleFrequency (flush_header Sample.platform Sample.queue)
          = 1000000000%Z.
Proof.
  split; [vm_compute; discriminate |].
  exact (flush_header_cycle_frequency
           Sample.platform Sample.finalized Sample.options Sample.queue
           eq_refl eq_refl eq_refl eq_refl ltac:(vm_compute; discriminate)).
Defined.

Lemma flush_returns_flushed_whatever_writes_do_witness :
  WriteScript Sample.finalized_bad_disk = [WriteFailsAfter 0]
  /\ exists (w' : World) (evs : list Event),
       run (fdrLoggingFlush Sample.platform) Sample.finalized_bad_disk
       = inr (XRAY_LOG_FLUSHED, w')
       /\ LogFlushStatus w' = XRAY_LOG_FLUSHED
       /\ LoggingStatus w' = XRAY_LOG_FINALIZED
       /\ BQ w' = Some Sample.queue
       /\ Trace w' = Trace Sample.finalized_bad_disk ++ evs
       /\ write_requests evs
          = [(4%Z, [x01; x00; x01; x00]%byte); (4%Z, [x2a; x2a; x2a; x2a]%byte)]
       /\ length evs = 2.
Proof.
  split; [reflexivity |].
  exact (flush_returns_flushed_whatever_writes_do
           Sample.platform Sample.finalized_bad_disk Sample.options Sample.queue
           eq_refl eq_refl eq_refl eq_refl ltac:(vm_compute; discriminate)).
Defined.

Lemma hook_falls_back_to_wall_clock_witness :
  probeRequiredCPUFeatures Sample.platform = false
  /\ exists w' : World,
       run (fdrLoggingHandleArg0 Sample.platform 3 ENTRY) Sample.fresh
       = inr (tt, w')
       /\ Trace w'
          = [EvClockGettime 0;
             EvProcessFunctionHook 3 ENTRY 3000000007 0
               XRAY_LOG_UNINITIALIZED None].
Proof.
  split; [reflexivity |].
  destruct (hook_falls_back_to_wall_clock Sample.platform Sample.fresh 3 ENTRY eq_refl)
    as (w' & Hrun & Htr & _).
  exists w'. split; [exact Hrun | exact Htr].
Defined.

(** ** Every path of the entry points *)

(** A world whose flush status was set to [XRAY_LOG_FLUSHING] and back is
    the world it was. *)
Lemma set_LogFlushStatus_back (w : World) :
  LogFlushStatus w = XRAY_LOG_NOT_FLUSHING ->
  set_LogFlushStatus XRAY_LOG_NOT_FLUSHING
    (set_LogFlushStatus XRAY_LOG_FLUSHING w) = w.
Proof.
  destruct w; simpl; intros ->; reflexivity.
Qed.

Section Paths.

Variable P : Platform.

(** The three ways [fdrLoggingInit] ends: nothing done; the pool
    construction failed; the pool and the handler installed. *)
Lemma init_cases :
  forall (w : World) (bs bm : N) (o : FDRLoggingOptions) (sz : N),
    run (fdrLoggingInit P bs bm o sz) w = inr (LoggingStatus w, w)
    \/ (LoggingStatus w = XRAY_LOG_UNINITIALIZED
        /\ sz = sizeof_FDRLoggingOptions P
        /\ exists (w' : World) (q : BufferQueue),
             run (fdrLoggingInit P bs bm o sz) w
             = inr (XRAY_LOG_UNINITIALIZED, w')
             /\ snd (BufferQueue_new (BufferQueue_allocate P) bs bm) = false
             /\ LoggingStatus w' = XRAY_LOG_INITIALIZING
             /\ LogFlushStatus w' = LogFlushStatus w
             /\ FDROptions w' = Some o
             /\ BQ w' = Some q
             /\ Trace w'
                = Trace w ++ [EvReport ("BufferQueue init failed." ++ newline) []])
    \/ (LoggingStatus w = XRAY_LOG_UNINITIALIZED
        /\ sz = sizeof_FDRLoggingOptions P
        /\ exists (w' : World) (q : BufferQueue),
             run (fdrLoggingInit P bs bm o sz) w
             = inr (XRAY_LOG_INITIALIZED, w')
             /\ snd (BufferQueue_new (BufferQueue_allocate P) bs bm) = true
             /\ LoggingStatus w' = XRAY_LOG_INITIALIZED
             /\ LogFlushStatus w' = LogFlushStatus w
             /\ FDROptions w' = Some o
             /\ BQ w' = Some q
             /\ ConfiguredBufferSize q = bs
             /\ Trace w'
                = Trace w
                  ++ [EvSetHandler;
                      EvReport ("XRay FDR init successful." ++ newline) []]).
Proof.
  intros w bs bm o sz.
  unfold fdrLoggingInit, run, BufferQueue_new.
  destruct (N.eqb_spec sz (sizeof_FDRLoggingOptions P)) as [Hsz | Hsz];
    [| left; reflexivity].
  simpl.
  destruct (LoggingStatus w) eqn:Hst; simpl; try (left; reflexivity).
  destruct (BufferQueue_allocate P bs bm) as [regions |]; simpl.
  - right; right. split; [reflexivity |]. split; [exact Hsz |].
    eexists; eexists. split; [reflexivity |].
    cbn. rewrite <- app_assoc. repeat split.
  - right; left. split; [reflexivity |]. split; [exact Hsz |].
    eexists; eexists. split; [reflexivity |].
    cbn. repeat split.
Qed.

(** The three ways [fdrLoggingFinalize] ends. *)
Lemma finalize_cases :
  forall w : World,
    (LoggingStatus w <> XRAY_LOG_INITIALIZED
     /\ run fdrLoggingFinalize w = inr (LoggingStatus w, w))
    \/ (LoggingStatus w = XRAY_LOG_INITIALIZED /\ BQ w = None
        /\ run fdrLoggingFinalize w = inl NullDereference)
    \/ (LoggingStatus w = XRAY_LOG_INITIALIZED
        /\ exists q : BufferQueue,
             BQ w = Some q
             /\ run fdrLoggingFinalize w
                = inr (XRAY_LOG_FINALIZED,
                       set_LoggingStatus XRAY_LOG_FINALIZED
                         (set_BQ (Some (BufferQueue_finalize q))
                            (set_LoggingStatus XRAY_LOG_FINALIZING w)))).
Proof.
  intros w. unfold fdrLoggingFinalize, run. simpl.
  destruct (LoggingStatus w) eqn:Hst; simpl;
    try (left; split; [discriminate | reflexivity]).
  destruct (BQ w) as [q |] eqn:Hbq; simpl.
  - right; right. split; [reflexivity |]. exists q. split; reflexivity.
  - right; left. repeat split.
Qed.

(** The ways [fdrLoggingFlush] ends: nothing done (the status is not
    [XRAY_LOG_FINALIZED], a flush is under way or done, or no descriptor
    could be resolved); a null pointer dereferenced; the write sequence
    made. *)
Lemma flush_cases :
  forall w : World,
    (LoggingStatus w <> XRAY_LOG_FINALIZED
     /\ run (fdrLoggingFlush P) w = inr (XRAY_LOG_NOT_FLUSHING, w))
    \/ (LoggingStatus w = XRAY_LOG_FINALIZED
        /\ LogFlushStatus w <> XRAY_LOG_NOT_FLUSHING
        /\ run (fdrLoggingFlush P) w = inr (LogFlushStatus w, w))
    \/ (LoggingStatus w = XRAY_LOG_FINALIZED
        /\ LogFlushStatus w = XRAY_LOG_NOT_FLUSHING
        /\ (exists o : FDRLoggingOptions,
              FDROptions w = Some o /\ flush_Fd P o = (-1)%Z)
        /\ run (fdrLoggingFlush P) w = inr (XRAY_LOG_NOT_FLUSHING, w))
    \/ (LoggingStatus w = XRAY_LOG_FINALIZED
        /\ LogFlushStatus w = XRAY_LOG_NOT_FLUSHING
        /\ (FDROptions w = None \/ BQ w = None)
        /\ run (fdrLoggingFlush P) w = inl NullDereference)
    \/ (exists (o : FDRLoggingOptions) (q : BufferQueue),
          LoggingStatus w = XRAY_LOG_FINALIZED
          /\ LogFlushStatus w = XRAY_LOG_NOT_FLUSHING
          /\ FDROptions w = Some o
          /\ BQ w = Some q
          /\ flush_Fd P o <> (-1)%Z).
Proof.
  intros w.
  destruct (LoggingStatus w) eqn:Hst;
    try (left; split; [discriminate |];
         unfold fdrLoggingFlush, run; simpl; rewrite Hst; reflexivity).
  right.
  destruct (LogFlushStatus w) eqn:Hfl;
    try (left; split; [reflexivity |]; split; [discriminate |];
         unfold fdrLoggingFlush, run; simpl; rewrite Hst; simpl;
         rewrite Hfl; reflexivity).
  right.
  destruct (FDROptions w) as [o |] eqn:Hop.
  - destruct (Z.eqb_spec (flush_Fd P o) (-1)) as [Hfd | Hfd].
    + left. split; [reflexivity |]. split; [reflexivity |].
      split; [exists o; split; [reflexivity | exact Hfd] |].
      unfold fdrLoggingFlush, run; simpl. rewrite Hst; simpl.
      rewrite Hfl; simpl. rewrite Hop; simpl. rewrite Hfd; simpl.
      rewrite (set_LogFlushStatus_back w Hfl). reflexivity.
    + destruct (BQ w) as [q |] eqn:Hbq.
      * right; right. exists o, q. repeat split; assumption.
      * right; left. split; [reflexivity |]. split; [reflexivity |].
        split; [right; reflexivity |].
        apply Z.eqb_neq in Hfd.
        unfold fdrLoggingFlush, run; simpl. rewrite Hst; simpl.
        rewrite Hfl; simpl. rewrite Hop; simpl. rewrite Hfd; simpl.
        rewrite Hbq. reflexivity.
  - right; left. split; [reflexivity |]. split; [reflexivity |].
    split; [left; reflexivity |].
    unfold fdrLoggingFlush, run; simpl. rewrite Hst; simpl.
    rewrite Hfl; simpl. rewrite Hop. reflexivity.
Qed.

End Paths.

(** Whatever its fuel, a loop of [fdrLoggingReset] that ends has touched
    nothing but the flush status and the script of the weak compare-and-swap;
    it has left the flush status alone or taken it from [XRAY_LOG_FLUSHED]
    to [XRAY_LOG_NOT_FLUSHING]. *)
Lemma reset_spin_effect :
  forall (fuel : nat) (w w' : World),
    run (reset_spin fuel XRAY_LOG_FLUSHED) w = inr (tt, w') ->
    BQ w' = BQ w
    /\ LoggingStatus w' = LoggingStatus w
    /\ FDROptions w' = FDROptions w
    /\ Trace w' = Trace w
    /\ (LogFlushStatus w' = LogFlushStatus w
        \/ (LogFlushStatus w = XRAY_LOG_FLUSHED
            /\ LogFlushStatus w' = XRAY_LOG_NOT_FLUSHING)).
Proof.
  intros fuel w w'. unfold run.
  destruct w as [bq st fl op mem ws cs tr].
  destruct fuel as [| [| fuel]]; simpl; [discriminate | |];
    destruct cs as [| [|] [| [|] cs]]; destruct fl; simpl;
    intros H; inversion H; subst; simpl; auto 10.
Qed.

(** The three ways [fdrLoggingReset] ends. *)
Lemma reset_cases :
  forall (fuel : nat) (w : World),
    (LoggingStatus w = XRAY_LOG_FINALIZED
     /\ run (fdrLoggingReset fuel) w
        = inr (XRAY_LOG_FINALIZED, set_LoggingStatus XRAY_LOG_INITIALIZED w))
    \/ (LoggingStatus w <> XRAY_LOG_FINALIZED
        /\ exists e : Abort, run (fdrLoggingReset fuel) w = inl e)
    \/ (LoggingStatus w <> XRAY_LOG_FINALIZED
        /\ exists w' : World,
             run (fdrLoggingReset fuel) w = inr (XRAY_LOG_UNINITIALIZED, w')
             /\ BQ w' = None
             /\ LoggingStatus w' = LoggingStatus w
             /\ FDROptions w' = FDROptions w
             /\ Trace w' = Trace w
             /\ (LogFlushStatus w' = LogFlushStatus w
                 \/ (LogFlushStatus w = XRAY_LOG_FLUSHED
                     /\ LogFlushStatus w' = XRAY_LOG_NOT_FLUSHING))).
Proof.
  intros fuel w.
  assert (Hdec : LoggingStatus w = XRAY_LOG_FINALIZED
                 \/ LoggingStatus w <> XRAY_LOG_FINALIZED)
    by (destruct (LoggingStatus w); auto; right; discriminate).
  destruct Hdec as [Hst | Hst].
  - left. split; [exact Hst | exact (reset_finalized_run fuel w Hst)].
  - right. rewrite (reset_not_finalized_run fuel w Hst).
    destruct (run (reset_spin fuel XRAY_LOG_FLUSHED) (set_BQ None w))
      as [e | [[] w']] eqn:Hspin.
    + left. split; [exact Hst | exists e; reflexivity].
    + right. split; [exact Hst |]. exists w'. split; [reflexivity |].
      destruct (reset_spin_effect fuel _ _ Hspin) as (Hq & Hs & Ho & Ht & Hf).
      repeat split; assumption.
Qed.

Lemma write_requests_app (a b : list Event) :
  write_requests (a ++ b) = write_requests a ++ write_requests b.
Proof.
  induction a as [| e a IH]; simpl; [reflexivity |].
  destruct e; simpl; rewrite ?IH; reflexivity.
Qed.

Lemma handler_installs_app (a b : list Event) :
  handler_installs (a ++ b) = handler_installs a + handler_installs b.
Proof.
  induction a as [| e a IH]; simpl; [reflexivity |].
  destruct e; simpl; rewrite ?IH; reflexivity.
Qed.

Lemma encoder_calls_app (a b : list Event) :
  encoder_calls (a ++ b) = encoder_calls a ++ encoder_calls b.
Proof.
  induction a as [| e a IH]; simpl; [reflexivity |].
  destruct e; simpl; rewrite ?IH; reflexivity.
Qed.

Section HookPaths.

Variable P : Platform.

(** The hook always completes.  It leaves the globals alone, asks for no
    write, installs no handler and calls the record encoder once, with the
    status and the pool handle of the moment. *)
Lemma hook_effect :
  forall (w : World) (FuncId : Z) (Entry : XRayEntryType),
    exists (w' : World) (evs : list Event),
      run (fdrLoggingHandleArg0 P FuncId Entry) w = inr (tt, w')
      /\ BQ w' = BQ w
      /\ LoggingStatus w' = LoggingStatus w
      /\ LogFlushStatus w' = LogFlushStatus w
      /\ FDROptions w' = FDROptions w
      /\ Trace w' = Trace w ++ evs
      /\ write_requests evs = []
      /\ handler_installs evs = 0
      /\ encoder_calls evs = [(LoggingStatus w, BQ w)].
Proof.
  intros w FuncId Entry. unfold fdrLoggingHandleArg0, run.
  destruct (probeRequiredCPUFeatures P).
  - destruct (readTSC P) as [TSC CPU]. simpl.
    eexists; eexists. split; [reflexivity |]. cbn. repeat split.
  - destruct (clock_gettime P) as [result TS0].
    destruct (Z.eqb_spec result 0) as [Hz | Hnz]; simpl.
    + eexists; eexists. split; [reflexivity |]. cbn.
      rewrite <- app_assoc. repeat split.
    + eexists; eexists. split; [reflexivity |]. cbn.
      rewrite <- !app_assoc. repeat split.
Qed.

End HookPaths.

(** ** The state machine the calls make *)

Lemma handler_installs_write_events (Fd : Z) (ranges : list (list byte)) :
  forall script : list WriteOutcome,
    handler_installs (write_events Fd ranges script) = 0.
Proof.
  induction ranges as [| r rest IH]; intros script; simpl; auto.
Qed.

Section Machine.

Variable P : Platform.

Lemma call_inr :
  forall (c : Call) (w w1 : World),
    run (call P c) w = inr (tt, w1) ->
    match c with
    | CallInit bs bm o sz =>
        exists r, run (fdrLoggingInit P bs bm o sz) w = inr (r, w1)
    | CallFinalize => exists r, run fdrLoggingFinalize w = inr (r, w1)
    | CallFlush => exists r, run (fdrLoggingFlush P) w = inr (r, w1)
    | CallReset fuel => exists r, run (fdrLoggingReset fuel) w = inr (r, w1)
    | CallHandleArg0 f e => run (fdrLoggingHandleArg0 P f e) w = inr (tt, w1)
    end.
Proof.
  intros c w w1. destruct c; unfold call; try (intros H; exact H);
    rewrite run_bind;
    match goal with
    | |- context [match ?r with _ => _ end] =>
        destruct r as [e | [r0 w0]]; [discriminate |]
    end;
    intros H; inversion H; subst; exists r0; reflexivity.
Qed.

(** Every call that completes makes one of the moves of [Transition], and
    only adds events to the trace. *)
Lemma call_transition :
  forall (c : Call) (w w1 : World),
    run (call P c) w = inr (tt, w1) ->
    exists evs : list Event,
      Trace w1 = Trace w ++ evs /\ Transition w w1 evs.
Proof.
  intros c w w1 H. apply call_inr in H.
  destruct c as [bs bm opts sz | | | fuel | FuncId Entry].
  - (* Initialize *)
    destruct H as [r H].
    destruct (init_cases P w bs bm opts sz)
      as [Hn | [(Hst & _ & w' & q & Hrun & _ & Hs & Hf & Ho & Hq & Ht)
             | (Hst & _ & w' & q & Hrun & _ & Hs & Hf & Ho & Hq & _ & Ht)]].
    + rewrite Hn in H. inversion H; subst.
      exists []. split; [now rewrite app_nil_r | now apply T_quiet].
    + rewrite Hrun in H. inversion H; subst.
      eexists. split; [exact Ht |].
      apply T_init_failed; auto; [rewrite Ho | rewrite Hq]; discriminate.
    + rewrite Hrun in H. inversion H; subst.
      eexists. split; [exact Ht |].
      apply T_init_done; auto; [rewrite Ho | rewrite Hq]; discriminate.
  - (* Finalize *)
    destruct H as [r H].
    destruct (finalize_cases w)
      as [(_ & Hrun) | [(_ & _ & Hrun) | (Hst & q & Hq & Hrun)]];
      rewrite Hrun in H; [| discriminate |]; inversion H; subst.
    + exists []. split; [now rewrite app_nil_r | now apply T_quiet].
    + exists []. split; [now rewrite app_nil_r |].
      apply T_finalize; auto. exists q. split; [exact Hq | reflexivity].
  - (* Flush *)
    destruct H as [r H].
    destruct (flush_cases P w)
      as [(_ & Hrun) | [(_ & _ & Hrun) | [(_ & _ & _ & Hrun)
          | [(_ & _ & _ & Hrun) | (o & q & Hst & Hfl & Ho & Hq & Hfd)]]]];
      try (rewrite Hrun in H; inversion H; subst;
           exists []; split; [now rewrite app_nil_r | now apply T_quiet]).
    + rewrite Hrun in H. discriminate.
    + rewrite (flush_run P w o q Hst Hfl Ho Hq Hfd) in H.
      inversion H; subst. clear H.
      set (ranges := XRayFileHeader_bytes P (flush_header P q)
                     :: map (buffer_range (Memory w))
                          (filter nonempty (used_buffers q))).
      destruct (written_all_frame (flush_Fd P o) ranges
                  (set_LogFlushStatus XRAY_LOG_FLUSHING w))
        as (Fq & Fs & _ & Fo & _).
      exists (write_events (flush_Fd P o) ranges (WriteScript w)). split.
      * exact (written_all_trace (flush_Fd P o) ranges
                 (set_LogFlushStatus XRAY_LOG_FLUSHING w)).
      * apply T_flush.
        -- exact Hst.
        -- exact (eq_trans Fs Hst).
        -- exact Hfl.
        -- reflexivity.
        -- exact Fo.
        -- exact Fq.
        -- rewrite Hq. discriminate.
        -- subst ranges. simpl. discriminate.
        -- apply handler_installs_write_events.
  - (* Reset *)
    destruct H as [r H].
    destruct (reset_cases fuel w)
      as [(Hst & Hrun) | [(_ & e & Hrun)
          | (Hst & w' & Hrun & Hq & Hs & Ho & Ht & Hf)]];
      rewrite Hrun in H; [| discriminate |]; inversion H; subst.
    + exists []. split; [now rewrite app_nil_r |].
      now apply T_reset_finalized.
    + exists []. split; [now rewrite app_nil_r |].
      now apply T_reset_release.
  - (* the hook *)
    destruct (hook_effect P w FuncId Entry)
      as (w' & evs & Hrun & Hq & Hs & Hf & Ho & Ht & Hw & Hi & _).
    rewrite Hrun in H. inversion H; subst.
    exists evs. split; [exact Ht | now apply T_quiet].
Qed.

Lemma calls_cons_inr :
  forall (c : Call) (l : list Call) (w w' : World),
    run (calls P (c :: l)) w = inr (tt, w') ->
    exists w1 : World,
      run (call P c) w = inr (tt, w1) /\ run (calls P l) w1 = inr (tt, w').
Proof.
  intros c l w w'. unfold calls. cbn [for_each]. rewrite run_bind.
  destruct (run (call P c) w) as [e | [[] w1]]; [discriminate |].
  intros H. exists w1. split; [reflexivity | exact H].
Qed.

(** What every move keeps, every completed sequence of calls keeps; what
    is true of the events of every such move is true of the events of the
    sequence. *)
Lemma calls_invariant (Inv : World -> Prop) (Quiet : list Event -> Prop) :
  Quiet [] ->
  (forall a b, Quiet a -> Quiet b -> Quiet (a ++ b)) ->
  (forall w w1 evs, Inv w -> Transition w w1 evs -> Inv w1 /\ Quiet evs) ->
  forall (l : list Call) (w w' : World),
    Inv w ->
    run (calls P l) w = inr (tt, w') ->
    Inv w' /\ exists evs, Trace w' = Trace w ++ evs /\ Quiet evs.
Proof.
  intros Hnil Happ Hstep.
  induction l as [| c l IH]; intros w w' Hinv Hrun.
  - inversion Hrun; subst. split; [exact Hinv |].
    exists []. split; [now rewrite app_nil_r | exact Hnil].
  - destruct (calls_cons_inr c l w w' Hrun) as (w1 & Hc & Hl).
    destruct (call_transition c w w1 Hc) as (e1 & Ht1 & Htr).
    destruct (Hstep w w1 e1 Hinv Htr) as [Hinv1 Hq1].
    destruct (IH w1 w' Hinv1 Hl) as (Hinv' & e2 & Ht2 & Hq2).
    split; [exact Hinv' |].
    exists (e1 ++ e2). split; [| now apply Happ].
    now rewrite Ht2, Ht1, app_assoc.
Qed.

End Machine.

(** ** Further properties of the entry points *)

Section Backing_out.

Variable P : Platform.

(** X1.  Once the status register has left [XRAY_LOG_UNINITIALIZED],
    [fdrLoggingInit] returns the value of the register and changes nothing,
    whatever its arguments: no options are copied, no pool is built, no
    handler installed, nothing reported. *)
Theorem init_backs_out_unless_uninitialized :
  forall (w : World) (BufferSize BufferMax : N) (Options : FDRLoggingOptions)
         (OptionsSize : N),
    LoggingStatus w <> XRAY_LOG_UNINITIALIZED ->
    run (fdrLoggingInit P BufferSize BufferMax Options OptionsSize) w
    = inr (LoggingStatus w, w).
Proof.
  intros w bs bm o sz Hst.
  destruct (init_cases P w bs bm o sz) as [H | [(Hu & _) | (Hu & _)]];
    [exact H | contradiction | contradiction].
Qed.

(** X2.  An [fdrLoggingInit] that succeeds installs a pool configured with
    the buffer size it was given, keeps the options it was given and
    installs the handler once; a second [fdrLoggingInit], whatever its
    arguments, returns [XRAY_LOG_INITIALIZED] and changes nothing. *)
Theorem init_twice_constructs_once :
  forall (w : World) (BufferSize BufferMax : N) (Options : FDRLoggingOptions)
         (regions : list BufferQueue_Buffer)
         (BufferSize' BufferMax' : N) (Options' : FDRLoggingOptions)
         (OptionsSize' : N),
    LoggingStatus w = XRAY_LOG_UNINITIALIZED ->
    BufferQueue_allocate P BufferSize BufferMax = Some regions ->
    exists (w1 : World) (Queue : BufferQueue),
      run (fdrLoggingInit P BufferSize BufferMax Options
             (sizeof_FDRLoggingOptions P)) w
      = inr (XRAY_LOG_INITIALIZED, w1)
      /\ BQ w1 = Some Queue
      /\ ConfiguredBufferSize Queue = BufferSize
      /\ FDROptions w1 = Some Options
      /\ handler_installs (Trace w1) = handler_installs (Trace w) + 1
      /\ run (fdrLoggingInit P BufferSize' BufferMax' Options' OptionsSize') w1
         = inr (XRAY_LOG_INITIALIZED, w1).
Proof.
  intros w bs bm o regions bs' bm' o' sz' Hst Halloc.
  destruct (init_success_run P w bs bm o regions Hst Halloc)
    as (w1 & q & Hrun & Hs1 & _ & Ho1 & Hq1 & Hsize & Ht1).
  exists w1, q. repeat split; try assumption.
  - rewrite Ht1, handler_installs_app. reflexivity.
  - destruct (init_cases P w1 bs' bm' o' sz') as [H | [(Hu & _) | (Hu & _)]];
      congruence.
Qed.

(** X3.  [fdrLoggingInit] always completes, and its return value is the
    value it leaves in the status register, except when the construction of
    the pool failed: then it returns [XRAY_LOG_UNINITIALIZED] and leaves
    [XRAY_LOG_INITIALIZING]. *)
Theorem init_result_and_register :
  forall (w : World) (BufferSize BufferMax : N) (Options : FDRLoggingOptions)
         (OptionsSize : N),
    exists (r : XRayLogInitStatus) (w' : World),
      run (fdrLoggingInit P BufferSize BufferMax Options OptionsSize) w
      = inr (r, w')
      /\ (r = LoggingStatus w'
          \/ (r = XRAY_LOG_UNINITIALIZED
              /\ LoggingStatus w' = XRAY_LOG_INITIALIZING
              /\ snd (BufferQueue_new (BufferQueue_allocate P)
                        BufferSize BufferMax) = false)).
Proof.
  intros w bs bm o sz.
  destruct (init_cases P w bs bm o sz)
    as [H | [(_ & _ & w' & q & H & Hfail & Hs & _)
         | (_ & _ & w' & q & H & _ & Hs & _)]].
  - exists (LoggingStatus w), w. split; [exact H | left; reflexivity].
  - exists XRAY_LOG_UNINITIALIZED, w'. split; [exact H | right; auto].
  - exists XRAY_LOG_INITIALIZED, w'. split; [exact H | left; now rewrite Hs].
Qed.

(** X4.  With the status register at anything but [XRAY_LOG_INITIALIZED],
    [fdrLoggingFinalize] returns the value of the register and changes
    nothing; the pool is not touched, installed or not. *)
Theorem finalize_backs_out_unless_initialized :
  forall w : World,
    LoggingStatus w <> XRAY_LOG_INITIALIZED ->
    run fdrLoggingFinalize w = inr (LoggingStatus w, w).
Proof.
  intros w Hst.
  destruct (finalize_cases w) as [(_ & H) | [(Hi & _) | (Hi & _)]];
    [exact H | contradiction | contradiction].
Qed.

(** X5.  [fdrLoggingFinalize] on an initialized world with a pool returns
    [XRAY_LOG_FINALIZED], finalizes the pool, leaves the flush status, the
    options and the trace alone; a second [fdrLoggingFinalize] returns
    [XRAY_LOG_FINALIZED] and changes nothing. *)
Theorem finalize_twice_finalizes_once :
  forall (w : World) (Queue : BufferQueue),
    LoggingStatus w = XRAY_LOG_INITIALIZED ->
    BQ w = Some Queue ->
    exists w1 : World,
      run fdrLoggingFinalize w = inr (XRAY_LOG_FINALIZED, w1)
      /\ LoggingStatus w1 = XRAY_LOG_FINALIZED
      /\ BQ w1 = Some (BufferQueue_finalize Queue)
      /\ LogFlushStatus w1 = LogFlushStatus w
      /\ FDROptions w1 = FDROptions w
      /\ Trace w1 = Trace w
      /\ run fdrLoggingFinalize w1 = inr (XRAY_LOG_FINALIZED, w1).
Proof.
  intros w q Hst Hq.
  eexists. split; [exact (finalize_run w q Hst Hq) |].
  repeat split.
Qed.

(** X6.  [fdrLoggingReset] on an initialized world clears the pool handle
    and leaves the status register at [XRAY_LOG_INITIALIZED]; the
    [fdrLoggingFinalize] that follows takes the compare-and-swap and
    dereferences the null handle. *)
Theorem finalize_after_reset_dereferences_null :
  forall (w : World) (fuel : nat),
    LoggingStatus w = XRAY_LOG_INITIALIZED ->
    2 <= fuel ->
    run (fdrLoggingReset fuel ;; fdrLoggingFinalize) w = inl NullDereference.
Proof.
  intros w fuel Hst Hfuel.
  rewrite run_bind.
  assert (Hnf : LoggingStatus w <> XRAY_LOG_FINALIZED) by (rewrite Hst; discriminate).
  rewrite (reset_not_finalized_run fuel w Hnf).
  destruct (reset_spin_total fuel (set_BQ None w) Hfuel)
    as (w1 & Hspin & Hq & Hs & _).
  rewrite Hspin.
  destruct (finalize_cases w1) as [(Hn & _) | [(_ & _ & H) | (_ & q & Hq1 & _)]].
  - exfalso. apply Hn. rewrite Hs. exact Hst.
  - exact H.
  - rewrite Hq in Hq1. discriminate.
Qed.

(** X7.  With the status register at [XRAY_LOG_FINALIZED] and the flush
    status at anything but [XRAY_LOG_NOT_FLUSHING], [fdrLoggingFlush]
    returns the flush status it found and changes nothing: a flush under
    way or done is not done again. *)
Theorem flush_backs_out_when_flush_status_taken :
  forall w : World,
    LoggingStatus w = XRAY_LOG_FINALIZED ->
    LogFlushStatus w <> XRAY_LOG_NOT_FLUSHING ->
    run (fdrLoggingFlush P) w = inr (LogFlushStatus w, w).
Proof.
  intros w Hst Hfl.
  destruct (flush_cases P w)
    as [(Hn & _) | [(_ & _ & H) | [(_ & Hf & _)
        | [(_ & Hf & _) | (o & q & _ & Hf & _)]]]];
    [contradiction | exact H | contradiction | contradiction | contradiction].
Qed.

(** X8.  When the options hold descriptor [-1] and [getLogFD()] gives [-1]
    too, [fdrLoggingFlush] returns [XRAY_LOG_NOT_FLUSHING] and leaves the
    world as it was, the flush status back at [XRAY_LOG_NOT_FLUSHING]: it
    can be tried again.  The pool handle is not looked at. *)
Theorem flush_without_descriptor_changes_nothing :
  forall (w : World) (Opts : FDRLoggingOptions),
    LoggingStatus w = XRAY_LOG_FINALIZED ->
    LogFlushStatus w = XRAY_LOG_NOT_FLUSHING ->
    FDROptions w = Some Opts ->
    flush_Fd P Opts = (-1)%Z ->
    run (fdrLoggingFlush P) w = inr (XRAY_LOG_NOT_FLUSHING, w).
Proof.
  intros w o Hst Hfl Ho Hfd.
  unfold fdrLoggingFlush, run; simpl. rewrite Hst; simpl.
  rewrite Hfl; simpl. rewrite Ho; simpl. rewrite Hfd; simpl.
  rewrite (set_LogFlushStatus_back w Hfl). reflexivity.
Qed.

(** X9.  When the status register reads [XRAY_LOG_FINALIZED], the value an
    [fdrLoggingFlush] that completes returns is the value it leaves in the
    flush status; the status register, the pool handle and the options are
    as before; and unless a flush was under way at the call, the flush
    status is not left at [XRAY_LOG_FLUSHING]. *)
Theorem flush_result_is_flush_status :
  forall (w w' : World) (r : XRayLogFlushStatus),
    LoggingStatus w = XRAY_LOG_FINALIZED ->
    run (fdrLoggingFlush P) w = inr (r, w') ->
    r = LogFlushStatus w'
    /\ LoggingStatus w' = XRAY_LOG_FINALIZED
    /\ BQ w' = BQ w
    /\ FDROptions w' = FDROptions w
    /\ (LogFlushStatus w <> XRAY_LOG_FLUSHING -> r <> XRAY_LOG_FLUSHING).
Proof.
  intros w w' r Hst Hrun.
  destruct (flush_cases P w)
    as [(Hn & _) | [(_ & Hf & H) | [(_ & Hf & _ & H)
        | [(_ & _ & _ & H) | (o & q & _ & Hf & Ho & Hq & Hfd)]]]].
  - contradiction.
  - rewrite H in Hrun. inversion Hrun; subst. repeat split; auto.
  - rewrite H in Hrun. inversion Hrun; subst.
    repeat split; auto. discriminate.
  - rewrite H in Hrun. discriminate.
  - rewrite (flush_run P w o q Hst Hf Ho Hq Hfd) in Hrun.
    inversion Hrun; subst.
    destruct (written_all_frame (flush_Fd P o)
                (XRayFileHeader_bytes P (flush_header P q)
                 :: map (buffer_range (Memory w))
                      (filter nonempty (used_buffers q)))
                (set_LogFlushStatus XRAY_LOG_FLUSHING w))
      as (Fq & Fs & _ & Fo & _).
    split; [reflexivity |]. split; [exact (eq_trans Fs Hst) |].
    split; [exact Fq |]. split; [exact Fo |]. discriminate.
Qed.

End Backing_out.

Section Hook_and_reset.

Variable P : Platform.

(** X10.  With the required CPU features present the hook reads no clock
    and reports nothing: it calls the record encoder with the counter and
    the CPU that [readTSC] gave, the status register and the process-wide
    pool handle, and that call is all it does. *)
Theorem hook_reads_counter_when_features_present :
  forall (w : World) (FuncId : Z) (Entry : XRayEntryType),
    probeRequiredCPUFeatures P = true ->
    run (fdrLoggingHandleArg0 P FuncId Entry) w
    = inr (tt,
           log_event
             (EvProcessFunctionHook FuncId Entry
                (fst (readTSC P)) (snd (readTSC P)) (LoggingStatus w) (BQ w))
             w).
Proof.
  intros w FuncId Entry Hprobe.
  unfold fdrLoggingHandleArg0, run. rewrite Hprobe.
  destruct (readTSC P) as [TSC CPU]. reflexivity.
Qed.


(** X15.  From a finalized world, two calls of [fdrLoggingReset] and an
    [fdrLoggingInit] with any arguments do not start the recorder again: the
    first Reset moves the register to [XRAY_LOG_INITIALIZED], the second
    clears the pool handle, and Initialize backs out, returning
    [XRAY_LOG_INITIALIZED] with no pool installed and nothing reported. *)
Theorem reset_twice_then_init_gets_no_pool :
  forall (w : World) (fuel1 fuel2 : nat) (BufferSize BufferMax : N)
         (Options : FDRLoggingOptions) (OptionsSize : N),
    LoggingStatus w = XRAY_LOG_FINALIZED ->
    2 <= fuel2 ->
    exists w' : World,
      run (fdrLoggingReset fuel1 ;;
           fdrLoggingReset fuel2 ;;
           fdrLoggingInit P BufferSize BufferMax Options OptionsSize) w
      = inr (XRAY_LOG_INITIALIZED, w')
      /\ BQ w' = None
      /\ LoggingStatus w' = XRAY_LOG_INITIALIZED
      /\ FDROptions w' = FDROptions w
      /\ Trace w' = Trace w.
Proof.
  intros w f1 f2 bs bm o sz Hst Hfuel.
  rewrite run_bind, (reset_finalized_run f1 w Hst), run_bind.
  set (w1 := set_LoggingStatus XRAY_LOG_INITIALIZED w).
  assert (Hnf : LoggingStatus w1 <> XRAY_LOG_FINALIZED) by discriminate.
  rewrite (reset_not_finalized_run f2 w1 Hnf).
  destruct (reset_spin_total f2 (set_BQ None w1) Hfuel)
    as (w2 & Hspin & Hq & Hs & Ho & Ht & _).
  rewrite Hspin.
  destruct (init_cases P w2 bs bm o sz) as [H | [(Hu & _) | (Hu & _)]];
    try (rewrite Hs in Hu; discriminate).
  exists w2. rewrite H, Hs. repeat split; assumption.
Qed.

End Hook_and_reset.

(** X16.  The value an [fdrLoggingReset] that completes returns is the
    value it leaves in the status register only when the register read
    [XRAY_LOG_UNINITIALIZED] at the call. *)
Theorem reset_result_equals_register_only_when_uninitialized :
  forall (fuel : nat) (w w' : World) (r : XRayLogInitStatus),
    run (fdrLoggingReset fuel) w = inr (r, w') ->
    (r = LoggingStatus w' <-> LoggingStatus w = XRAY_LOG_UNINITIALIZED).
Proof.
  intros fuel w w' r Hrun.
  destruct (reset_cases fuel w)
    as [(Hst & H) | [(_ & e & H) | (Hst & w1 & H & _ & Hs & _)]];
    rewrite H in Hrun; [| discriminate |]; inversion Hrun; subst.
  - simpl. rewrite Hst. split; discriminate.
  - rewrite Hs. split; congruence.
Qed.

Section Sequences.

Variable P : Platform.


(** No move away from a status other than [XRAY_LOG_UNINITIALIZED] leads
    back to it, replaces the options, installs a pool or the handler. *)
Lemma reinit_free_step (w0 : World) :
  forall (w w1 : World) (evs : list Event),
    (LoggingStatus w <> XRAY_LOG_UNINITIALIZED
     /\ FDROptions w = FDROptions w0
     /\ same_pool_or_none (BQ w0) (BQ w)) ->
    Transition w w1 evs ->
    (LoggingStatus w1 <> XRAY_LOG_UNINITIALIZED
     /\ FDROptions w1 = FDROptions w0
     /\ same_pool_or_none (BQ w0) (BQ w1))
    /\ handler_installs evs = 0.
Proof.
  intros w w1 evs (Hst & Ho & Hp) Htr.
  destruct Htr as [Hq Hs Hf Ho1 Hw Hi | Hu | Hu
                   | Hs Hs1 Hf Ho1 (q & Hq & Hq1) He
                   | Hs Hs1 Hf Hf1 Ho1 Hq Hn Hw Hi
                   | Hs Hs1 Hf Ho1 Hq He
                   | Hs Hs1 Hf Ho1 Hq He];
    try contradiction.
  - repeat split; try congruence.
  - subst evs. repeat split; try congruence.
    destruct Hp as [Hnone | (q0 & q' & H0 & Hq' & Hsz & Hbufs)];
      [congruence |].
    right. exists q0, (BufferQueue_finalize q).
    rewrite Hq in Hq'. inversion Hq'; subst q'.
    repeat split; auto.
  - repeat split; try congruence.
  - subst evs. repeat split; try congruence.
  - subst evs. repeat split; try congruence. now left.
Qed.

Lemma same_pool_or_none_refl (b : option BufferQueue) :
  same_pool_or_none b b.
Proof.
  destruct b as [q |]; [right; exists q, q; auto | now left].
Qed.


(** X19.  In a sequence of calls that completes, whatever the world it
    starts in, the handler is installed at most once: at most one
    [fdrLoggingInit] gets to build a pool. *)
Theorem at_most_one_init_constructs :
  forall (l : list Call) (w w' : World),
    run (calls P l) w = inr (tt, w') ->
    exists evs : list Event,
      Trace w' = Trace w ++ evs /\ handler_installs evs <= 1.
Proof.
  induction l as [| c l IH]; intros w w' Hrun.
  - inversion Hrun; subst. exists []. split; [now rewrite app_nil_r | auto].
  - destruct (calls_cons_inr P c l w w' Hrun) as (w1 & Hc & Hl).
    destruct (call_transition P c w w1 Hc) as (e1 & Ht1 & Htr).
    assert (Hcase : handler_installs e1 = 0
                    \/ (handler_installs e1 = 1
                        /\ LoggingStatus w1 <> XRAY_LOG_UNINITIALIZED)).
    { destruct Htr; subst; auto.
      right. split; [assumption | congruence]. }
    destruct Hcase as [H0 | [H1 Hs1]].
    + destruct (IH w1 w' Hl) as (e2 & Ht2 & Hle).
      exists (e1 ++ e2). split; [now rewrite Ht2, Ht1, app_assoc |].
      rewrite handler_installs_app, H0. exact Hle.
    + destruct (calls_invariant P
                  (fun w2 => LoggingStatus w2 <> XRAY_LOG_UNINITIALIZED
                             /\ FDROptions w2 = FDROptions w1
                             /\ same_pool_or_none (BQ w1) (BQ w2))
                  (fun evs => handler_installs evs = 0)
                  eq_refl
                  (fun a b Ha Hb =>
                     eq_trans (handler_installs_app a b)
                       (f_equal2 Nat.add Ha Hb))
                  (reinit_free_step w1)
                  l w1 w'
                  (conj Hs1 (conj eq_refl (same_pool_or_none_refl (BQ w1))))
                  Hl)
        as (_ & e2 & Ht2 & Hi).
      exists (e1 ++ e2). split; [now rewrite Ht2, Ht1, app_assoc |].
      rewrite handler_installs_app, H1, Hi. auto.
Qed.

End Sequences.

Section Dead_ends.

Variable P : Platform.

Lemma call_completes_in_between (c : Call) (w : World) :
  LoggingStatus w = XRAY_LOG_INITIALIZING
  \/ LoggingStatus w = XRAY_LOG_FINALIZING ->
  enough_fuel c ->
  exists w1 : World, run (call P c) w = inr (tt, w1).
Proof.
  intros Hst Hfuel.
  destruct c as [bs bm o sz | | | fuel | FuncId Entry]; unfold call;
    rewrite ?run_bind.
  - destruct (init_cases P w bs bm o sz) as [H | [(Hu & _) | (Hu & _)]];
      [rewrite H; eexists; reflexivity | |]; destruct Hst; congruence.
  - destruct (finalize_cases w) as [(_ & H) | [(Hi & _) | (Hi & _)]];
      [rewrite H; eexists; reflexivity | |]; destruct Hst; congruence.
  - destruct (flush_cases P w)
      as [(_ & H) | [(Hf & _) | [(Hf & _) | [(Hf & _) | (o & q & Hf & _)]]]];
      [rewrite H; eexists; reflexivity | | | |]; destruct Hst; congruence.
  - assert (Hnf : LoggingStatus w <> XRAY_LOG_FINALIZED)
      by (destruct Hst; congruence).
    rewrite (reset_not_finalized_run fuel w Hnf).
    destruct (reset_spin_total fuel (set_BQ None w) Hfuel) as (w1 & Hspin & _).
    rewrite Hspin. eexists; reflexivity.
  - destruct (hook_effect P w FuncId Entry) as (w1 & evs & H & _). eauto.
Qed.

Lemma in_between_step :
  forall (w w1 : World) (evs : list Event),
    LoggingStatus w = XRAY_LOG_INITIALIZING
    \/ LoggingStatus w = XRAY_LOG_FINALIZING ->
    Transition w w1 evs ->
    LoggingStatus w1 = LoggingStatus w
    /\ write_requests evs = []
    /\ handler_installs evs = 0.
Proof.
  intros w w1 evs Hst Htr.
  destruct Htr; subst; try (destruct Hst; congruence); auto.
Qed.

(** X13.  The two in-between values of the status register are dead ends.
    From a world whose register reads [XRAY_LOG_INITIALIZING] (where a
    failed pool construction leaves it) or [XRAY_LOG_FINALIZING], every
    sequence of calls completes, given Reset its two rounds of fuel, and
    the register still reads the same: nothing is written and no handler
    installed. *)
Theorem in_between_status_is_a_dead_end :
  forall (l : list Call) (w : World),
    LoggingStatus w = XRAY_LOG_INITIALIZING
    \/ LoggingStatus w = XRAY_LOG_FINALIZING ->
    Forall enough_fuel l ->
    exists (w' : World) (evs : list Event),
      run (calls P l) w = inr (tt, w')
      /\ LoggingStatus w' = LoggingStatus w
      /\ Trace w' = Trace w ++ evs
      /\ write_requests evs = []
      /\ handler_installs evs = 0.
Proof.
  induction l as [| c l IH]; intros w Hst Hfuel.
  - exists w, []. repeat split. now rewrite app_nil_r.
  - inversion Hfuel as [| c' l' Hc Hl]; subst.
    destruct (call_completes_in_between c w Hst Hc) as (w1 & Hrun1).
    destruct (call_transition P c w w1 Hrun1) as (e1 & Ht1 & Htr).
    destruct (in_between_step w w1 e1 Hst Htr) as (Hs1 & Hw1 & Hi1).
    assert (Hst1 : LoggingStatus w1 = XRAY_LOG_INITIALIZING
                   \/ LoggingStatus w1 = XRAY_LOG_FINALIZING)
      by (rewrite Hs1; exact Hst).
    destruct (IH w1 Hst1 Hl) as (w' & e2 & Hrun2 & Hs2 & Ht2 & Hw2 & Hi2).
    exists w', (e1 ++ e2).
    split.
    { unfold calls in *. cbn [for_each]. rewrite run_bind, Hrun1.
      exact Hrun2. }
    split; [congruence |].
    split; [now rewrite Ht2, Ht1, app_assoc |].
    split.
    + now rewrite write_requests_app, Hw1, Hw2.
    + now rewrite handler_installs_app, Hi1, Hi2.
Qed.

Lemma spent_step :
  forall (w w1 : World) (evs : list Event),
    spent w ->
    Transition w w1 evs ->
    spent w1 /\ write_requests evs = [].
Proof.
  intros w w1 evs [Hst Hsp] Htr. unfold spent.
  destruct Htr as [Hq Hs Hf Ho1 Hw Hi | Hu | Hu
                   | Hs Hs1 Hf Ho1 (q & Hq & Hq1) He
                   | Hs Hs1 Hf Hf1 Ho1 Hq Hn Hw Hi
                   | Hs Hs1 Hf Ho1 Hq He
                   | Hs Hs1 Hf Ho1 Hq He];
    try contradiction.
  - split; [| exact Hw]. split; [congruence |].
    destruct Hsp; [left | right]; congruence.
  - subst evs. split; [| reflexivity]. split; [congruence |].
    destruct Hsp as [Hfl | Hnone]; [left; congruence | congruence].
  - exfalso. destruct Hsp as [Hfl | Hnone]; [congruence | contradiction].
  - subst evs. split; [| reflexivity]. split; [congruence |].
    destruct Hsp; [left | right]; congruence.
  - subst evs. split; [| reflexivity]. split; [congruence |]. now right.
Qed.

(** X14.  After a flush that got to write, no sequence of calls that
    completes writes again: all the write requests of the flush and of the
    calls after it are the header and the used buffers of non-zero size,
    once. *)
Theorem nothing_written_after_a_flush :
  forall (w w' : World) (Opts : FDRLoggingOptions) (Queue : BufferQueue)
         (l : list Call),
    LoggingStatus w = XRAY_LOG_FINALIZED ->
    LogFlushStatus w = XRAY_LOG_NOT_FLUSHING ->
    FDROptions w = Some Opts ->
    BQ w = Some Queue ->
    flush_Fd P Opts <> (-1)%Z ->
    run (fdrLoggingFlush P ;; calls P l) w = inr (tt, w') ->
    write_requests (Trace w')
    = write_requests (Trace w)
      ++ map (pair (flush_Fd P Opts))
           (XRayFileHeader_bytes P (flush_header P Queue)
            :: map (buffer_range (Memory w))
                 (filter nonempty (used_buffers Queue))).
Proof.
  intros w w' o q l Hst Hfl Ho Hq Hfd Hrun.
  rewrite run_bind, (flush_run P w o q Hst Hfl Ho Hq Hfd) in Hrun.
  set (ranges := XRayFileHeader_bytes P (flush_header P q)
                 :: map (buffer_range (Memory w))
                      (filter nonempty (used_buffers q))) in *.
  set (w1 := set_LogFlushStatus XRAY_LOG_FLUSHED
               (written_all (flush_Fd P o) ranges
                  (set_LogFlushStatus XRAY_LOG_FLUSHING w))) in *.
  destruct (written_all_frame (flush_Fd P o) ranges
              (set_LogFlushStatus XRAY_LOG_FLUSHING w))
    as (_ & Fs & _).
  assert (Hspent : spent w1).
  { split; [| left; reflexivity].
    change (LoggingStatus w1)
      with (LoggingStatus (written_all (flush_Fd P o) ranges
                             (set_LogFlushStatus XRAY_LOG_FLUSHING w))).
    rewrite Fs. cbn [LoggingStatus set_LogFlushStatus]. rewrite Hst.
    discriminate. }
  destruct (calls_invariant P spent (fun evs => write_requests evs = [])
              eq_refl
              (fun a b Ha Hb =>
                 eq_trans (write_requests_app a b)
                   (f_equal2 (@app _) Ha Hb))
              spent_step l w1 w' Hspent Hrun)
    as (_ & evs & Ht & Hw).
  rewrite Ht, write_requests_app, Hw, app_nil_r.
  change (Trace w1)
    with (Trace (written_all (flush_Fd P o) ranges
                   (set_LogFlushStatus XRAY_LOG_FLUSHING w))).
  rewrite written_all_trace, write_requests_app, write_requests_write_events.
  reflexivity.
Qed.

End Dead_ends.

Section Safety.

Variable P : Platform.

Lemma settled_step :
  forall (w w1 : World) (evs : list Event),
    settled w ->
    Transition w w1 evs ->
    settled w1 /\ True.
Proof.
  intros w w1 evs Hset Htr. split; [| exact I]. unfold settled in *.
  destruct Htr as [Hq Hs Hf Ho1 Hw Hi
                   | Hu Hs1 Hf Ho1 Hq Hw Hi
                   | Hu Hs1 Hf Ho1 Hq Hw Hi
                   | Hs Hs1 Hf Ho1 (q & Hq & Hq1) He
                   | Hs Hs1 Hf Hf1 Ho1 Hq Hn Hw Hi
                   | Hs Hs1 Hf Ho1 Hq He
                   | Hs Hs1 Hf Ho1 Hq He].
  - destruct Hset as [Hu | [Ho Hp]]; [left; congruence |].
    right. rewrite Ho1, Hs, Hq. auto.
  - right. split; [exact Ho1 | intros _; exact Hq].
  - right. split; [exact Ho1 | intros _; exact Hq].
  - destruct Hset as [Hu | [Ho Hp]]; [congruence |].
    right. rewrite Ho1, Hq1. split; [exact Ho | intros _; discriminate].
  - destruct Hset as [Hu | [Ho Hp]]; [congruence |].
    right. rewrite Ho1, Hq. auto.
  - destruct Hset as [Hu | [Ho Hp]]; [congruence |].
    right. rewrite Ho1. split; [exact Ho | congruence].
  - destruct Hset as [Hu | [Ho Hp]]; [left; congruence |].
    right. rewrite Ho1. split; [exact Ho | congruence].
Qed.

Lemma calls_keep_settled :
  forall (l : list Call) (w w' : World),
    settled w ->
    run (calls P l) w = inr (tt, w') ->
    settled w'.
Proof.
  intros l w w' Hset Hrun.
  exact (proj1 (calls_invariant P settled (fun _ => True) I
                  (fun _ _ _ _ => I) settled_step l w w' Hset Hrun)).
Qed.

(** X21.  In every world that a completed sequence of calls reaches from a
    world whose status register reads [XRAY_LOG_UNINITIALIZED], a status
    register at [XRAY_LOG_FINALIZED] comes with a pool installed and the
    options set, and [fdrLoggingFlush] completes: it dereferences no null
    pointer. *)
Theorem flush_is_safe_after_any_calls :
  forall (l : list Call) (w0 w : World),
    LoggingStatus w0 = XRAY_LOG_UNINITIALIZED ->
    run (calls P l) w0 = inr (tt, w) ->
    (LoggingStatus w = XRAY_LOG_FINALIZED ->
     BQ w <> None /\ FDROptions w <> None)
    /\ exists (r : XRayLogFlushStatus) (w' : World),
         run (fdrLoggingFlush P) w = inr (r, w').
Proof.
  intros l w0 w Hu Hrun.
  assert (Hset : settled w)
    by (exact (calls_keep_settled l w0 w (or_introl Hu) Hrun)).
  assert (Hfin : LoggingStatus w = XRAY_LOG_FINALIZED ->
                 BQ w <> None /\ FDROptions w <> None).
  { intros Hs. destruct Hset as [Hu' | [Ho Hp]]; [congruence | auto]. }
  split; [exact Hfin |].
  destruct (flush_cases P w)
    as [(_ & H) | [(_ & _ & H) | [(_ & _ & _ & H)
        | [(Hs & _ & Hnull & _) | (o & q & Hs & Hf & Ho & Hq & Hfd)]]]];
    try (eexists; eexists; exact H).
  - exfalso. destruct (Hfin Hs) as [Hq Ho].
    destruct Hnull; contradiction.
  - eexists; eexists. exact (flush_run P w o q Hs Hf Ho Hq Hfd).
Qed.


End Safety.

(** ** The further properties at the sample inputs *)

Lemma init_backs_out_unless_uninitialized_witness :
  LoggingStatus Sample.finalized <> XRAY_LOG_UNINITIALIZED
  /\ run (fdrLoggingInit Sample.tsc_platform 4096 2 Sample.options 8)
       Sample.finalized
     = inr (XRAY_LOG_FINALIZED, Sample.finalized).
Proof.
  split; [vm_compute; discriminate |].
  apply (init_backs_out_unless_uninitialized
           Sample.tsc_platform Sample.finalized 4096 2 Sample.options 8).
  vm_compute. discriminate.
Defined.

Lemma init_twice_constructs_once_witness :
  LoggingStatus Sample.fresh = XRAY_LOG_UNINITIALIZED
  /\ exists (w1 : World) (Queue : BufferQueue),
       run (fdrLoggingInit Sample.tsc_platform 4096 2 Sample.options 8)
         Sample.fresh
       = inr (XRAY_LOG_INITIALIZED, w1)
       /\ BQ w1 = Some Queue
       /\ ConfiguredBufferSize Queue = 4096%N
       /\ FDROptions w1 = Some Sample.options
       /\ handler_installs (Trace w1) = 1
       /\ run (fdrLoggingInit Sample.tsc_platform 64 8
                 {| ReportErrors := true; Fd := 2 |} 8) w1
          = inr (XRAY_LOG_INITIALIZED, w1).
Proof.
  split; [reflexivity |].
  exact (init_twice_constructs_once
           Sample.tsc_platform Sample.fresh 4096 2 Sample.options
           [ {| Buffer := 16; Size := 4096 |};
             {| Buffer := 16 + 4096; Size := 4096 |} ]
           64 8 {| ReportErrors := true; Fd := 2 |} 8 eq_refl eq_refl).
Defined.

Lemma finalize_backs_out_unless_initialized_witness :
  LoggingStatus Sample.finalized <> XRAY_LOG_INITIALIZED
  /\ run fdrLoggingFinalize Sample.finalized
     = inr (XRAY_LOG_FINALIZED, Sample.finalized).
Proof.
  split; [vm_compute; discriminate |].
  apply (finalize_backs_out_unless_initialized Sample.finalized).
  vm_compute. discriminate.
Defined.

Lemma finalize_twice_finalizes_once_witness :
  LoggingStatus Sample.initialized = XRAY_LOG_INITIALIZED
  /\ exists w1 : World,
       run fdrLoggingFinalize Sample.initialized
       = inr (XRAY_LOG_FINALIZED, w1)
       /\ LoggingStatus w1 = XRAY_LOG_FINALIZED
       /\ run fdrLoggingFinalize w1 = inr (XRAY_LOG_FINALIZED, w1).
Proof.
  split; [reflexivity |].
  destruct (finalize_twice_finalizes_once Sample.initialized _ eq_refl eq_refl)
    as (w1 & H1 & H2 & _ & _ & _ & _ & H3).
  exists w1. repeat split; assumption.
Defined.

Lemma finalize_after_reset_dereferences_null_witness :
  LoggingStatus Sample.initialized = XRAY_LOG_INITIALIZED
  /\ 2 <= 2
  /\ run (fdrLoggingReset 2 ;; fdrLoggingFinalize) Sample.initialized
     = inl NullDereference.
Proof.
  split; [reflexivity |]. split; [lia |].
  apply (finalize_after_reset_dereferences_null Sample.initialized 2);
    [reflexivity | lia].
Defined.

Lemma flush_backs_out_when_flush_status_taken_witness :
  LogFlushStatus Sample.flushed <> XRAY_LOG_NOT_FLUSHING
  /\ run (fdrLoggingFlush Sample.platform) Sample.flushed
     = inr (XRAY_LOG_FLUSHED, Sample.flushed).
Proof.
  split; [vm_compute; discriminate |].
  apply (flush_backs_out_when_flush_status_taken Sample.platform Sample.flushed);
    [reflexivity | vm_compute; discriminate].
Defined.

Lemma flush_without_descriptor_changes_nothing_witness :
  flush_Fd Sample.no_log_platform Sample.options = (-1)%Z
  /\ run (fdrLoggingFlush Sample.no_log_platform) Sample.finalized
     = inr (XRAY_LOG_NOT_FLUSHING, Sample.finalized).
Proof.
  split; [reflexivity |].
  apply (flush_without_descriptor_changes_nothing
           Sample.no_log_platform Sample.finalized Sample.options);
    reflexivity.
Defined.

Lemma flush_result_is_flush_status_witness :
  exists w' : World,
    run (fdrLoggingFlush Sample.platform) Sample.finalized
    = inr (XRAY_LOG_FLUSHED, w')
    /\ XRAY_LOG_FLUSHED = LogFlushStatus w'
    /\ LoggingStatus w' = XRAY_LOG_FINALIZED
    /\ BQ w' = BQ Sample.finalized.
Proof.
  eexists. split; [reflexivity |].
  destruct (flush_result_is_flush_status
              Sample.platform Sample.finalized _ XRAY_LOG_FLUSHED
              eq_refl eq_refl)
    as (H1 & H2 & H3 & _).
  repeat split; assumption.
Defined.

Lemma hook_reads_counter_when_features_present_witness :
  probeRequiredCPUFeatures Sample.tsc_platform = true
  /\ run (fdrLoggingHandleArg0 Sample.tsc_platform 3 EXIT) Sample.initialized
     = inr (tt,
            log_event
              (EvProcessFunctionHook 3 EXIT 123456789 3
                 XRAY_LOG_INITIALIZED (BQ Sample.initialized))
              Sample.initialized).
Proof.
  split; [reflexivity |].
  exact (hook_reads_counter_when_features_present
           Sample.tsc_platform Sample.initialized 3 EXIT eq_refl).
Defined.

Lemma reset_twice_then_init_gets_no_pool_witness :
  LoggingStatus Sample.flushed = XRAY_LOG_FINALIZED
  /\ 2 <= 2
  /\ exists w' : World,
       run (fdrLoggingReset 2 ;;
            fdrLoggingReset 2 ;;
            fdrLoggingInit Sample.tsc_platform 4096 2 Sample.options 8)
         Sample.flushed
       = inr (XRAY_LOG_INITIALIZED, w')
       /\ BQ w' = None
       /\ LoggingStatus w' = XRAY_LOG_INITIALIZED.
Proof.
  split; [reflexivity |]. split; [lia |].
  destruct (reset_twice_then_init_gets_no_pool
              Sample.tsc_platform Sample.flushed 2 2 4096 2 Sample.options 8
              eq_refl (le_n 2))
    as (w' & H1 & H2 & H3 & _).
  exists w'. repeat split; assumption.
Defined.

Lemma reset_result_equals_register_only_when_uninitialized_witness :
  run (fdrLoggingReset 2) Sample.finalized
  = inr (XRAY_LOG_FINALIZED,
         set_LoggingStatus XRAY_LOG_INITIALIZED Sample.finalized)
  /\ (XRAY_LOG_FINALIZED
      = LoggingStatus (set_LoggingStatus XRAY_LOG_INITIALIZED Sample.finalized)
      <-> LoggingStatus Sample.finalized = XRAY_LOG_UNINITIALIZED).
Proof.
  split; [reflexivity |].
  apply (reset_result_equals_register_only_when_uninitialized
           2 Sample.finalized _ XRAY_LOG_FINALIZED).
  reflexivity.
Defined.



Lemma at_most_one_init_constructs_witness :
  exists w' : World,
    run (calls Sample.tsc_platform
           [CallInit 4096 2 Sample.options 8; CallReset 2;
            CallInit 4096 2 Sample.options 8])
      Sample.fresh
    = inr (tt, w')
    /\ exists evs : list Event,
         Trace w' = Trace Sample.fresh ++ evs /\ handler_installs evs <= 1.
Proof.
  eexists. split; [reflexivity |].
  apply (at_most_one_init_constructs Sample.tsc_platform
           [CallInit 4096 2 Sample.options 8; CallReset 2;
            CallInit 4096 2 Sample.options 8]
           Sample.fresh).
  reflexivity.
Defined.

Lemma in_between_status_is_a_dead_end_witness :
  LoggingStatus Sample.stuck = XRAY_LOG_INITIALIZING
  /\ Forall enough_fuel
       [CallInit 4096 2 Sample.options 8; CallFinalize; CallFlush;
        CallReset 2; CallHandleArg0 3 ENTRY]
  /\ exists (w' : World) (evs : list Event),
       run (calls Sample.tsc_platform
              [CallInit 4096 2 Sample.options 8; CallFinalize; CallFlush;
               CallReset 2; CallHandleArg0 3 ENTRY])
         Sample.stuck
       = inr (tt, w')
       /\ LoggingStatus w' = LoggingStatus Sample.stuck
       /\ Trace w' = Trace Sample.stuck ++ evs
       /\ write_requests evs = []
       /\ handler_installs evs = 0.
Proof.
  assert (Hfuel : Forall enough_fuel
                    [CallInit 4096 2 Sample.options 8; CallFinalize; CallFlush;
                     CallReset 2; CallHandleArg0 3 ENTRY])
    by (repeat constructor).
  split; [reflexivity |]. split; [exact Hfuel |].
  exact (in_between_status_is_a_dead_end Sample.tsc_platform _ Sample.stuck
           (or_introl eq_refl) Hfuel).
Defined.

Lemma nothing_written_after_a_flush_witness :
  flush_Fd Sample.platform Sample.options <> (-1)%Z
  /\ exists w' : World,
       run (fdrLoggingFlush Sample.platform ;;
            calls Sample.platform
              [CallFlush; CallReset 2; CallReset 2;
               CallInit 4096 2 Sample.options 8; CallFlush])
         Sample.finalized
       = inr (tt, w')
       /\ write_requests (Trace w')
          = [(4%Z, [x01; x00; x01; x00]%byte);
             (4%Z, [x2a; x2a; x2a; x2a]%byte)].
Proof.
  split; [vm_compute; discriminate |].
  eexists. split; [reflexivity |].
  exact (nothing_written_after_a_flush Sample.platform Sample.finalized _
           Sample.options Sample.queue
           [CallFlush; CallReset 2; CallReset 2;
            CallInit 4096 2 Sample.options 8; CallFlush]
           eq_refl eq_refl eq_refl eq_refl
           ltac:(vm_compute; discriminate) eq_refl).
Defined.

Lemma lifecycle_header_declares_init_buffer_size_witness :
  LoggingStatus Sample.fresh = XRAY_LOG_UNINITIALIZED
  /\ flush_Fd Sample.tsc_platform Sample.options <> (-1)%Z
  /\ exists (w' : World) (Header : XRayFileHeader) (landed : list byte)
            (rest : list Event),
       run (fdrLoggingInit Sample.tsc_platform 4096 2 Sample.options 8 ;;
            fdrLoggingFinalize ;;
            fdrLoggingFlush Sample.tsc_platform) Sample.fresh
       = inr (XRAY_LOG_FLUSHED, w')
       /\ Trace w'
          = (Trace Sample.fresh
             ++ [EvSetHandler;
                 EvReport ("XRay FDR init successful." ++ newline) []])
            ++ EvWrite 4 (XRayFileHeader_bytes Sample.tsc_platform Header) landed
            :: rest
       /\ FdrData Header = 4096%N.
Proof.
  split; [reflexivity |]. split; [vm_compute; discriminate |].
  exact (lifecycle_header_declares_init_buffer_size
           Sample.tsc_platform Sample.fresh 4096 2 Sample.options
           [ {| Buffer := 16; Size := 4096 |};
             {| Buffer := 16 + 4096; Size := 4096 |} ]
           eq_refl eq_refl eq_refl ltac:(vm_compute; discriminate)).
Defined.

Lemma reset_final_flush_status_witness :
  2 <= 2
  /\ LoggingStatus (set_LoggingStatus XRAY_LOG_INITIALIZED Sample.flushed)
     <> XRAY_LOG_FINALIZED
  /\ exists w' : World,
       run (fdrLoggingReset 2)
         (set_LoggingStatus XRAY_LOG_INITIALIZED Sample.flushed)
       = inr (XRAY_LOG_UNINITIALIZED, w')
       /\ LogFlushStatus w' = XRAY_LOG_NOT_FLUSHING.
Proof.
  split; [lia |]. split; [vm_compute; discriminate |].
  exact (reset_final_flush_status 2
           (set_LoggingStatus XRAY_LOG_INITIALIZED Sample.flushed)
           (le_n 2) ltac:(vm_compute; discriminate) eq_refl).
Defined.

Lemma flush_is_safe_after_any_calls_witness :
  LoggingStatus Sample.fresh = XRAY_LOG_UNINITIALIZED
  /\ exists w : World,
       run (calls Sample.tsc_platform
              [CallInit 4096 2 Sample.options 8; CallHandleArg0 3 ENTRY;
               CallFinalize])
         Sample.fresh
       = inr (tt, w)
       /\ LoggingStatus w = XRAY_LOG_FINALIZED
       /\ BQ w <> None
       /\ exists (r : XRayLogFlushStatus) (w' : World),
            run (fdrLoggingFlush Sample.tsc_platform) w = inr (r, w').
Proof.
  split; [reflexivity |].
  eexists. split; [reflexivity |]. split; [reflexivity |].
  destruct (flush_is_safe_after_any_calls Sample.tsc_platform
              [CallInit 4096 2 Sample.options 8; CallHandleArg0 3 ENTRY;
               CallFinalize]
              Sample.fresh _ eq_refl eq_refl)
    as [Hfin Hsafe].
  split; [exact (proj1 (Hfin eq_refl)) | exact Hsafe].
Defined.

